(** * C2-NET training orchestrator: a shallow embedding of [train.py]

    The program is one orchestration loop ([train_model]) over external
    numerical collaborators (network, optimizer, scheduler, loaders, metric
    library).  The collaborators are taken as an interface ([Backend]); the
    orchestration itself -- resume, epoch loop, phases, metric aggregation,
    prediction dumps, scalar log, checkpoints -- is translated line by line
    into an error-and-state monad over the run state and the file system.

    Left out, as they touch neither the run state nor the files and the
    scalar stream: console output ([print], [tqdm]), wall-clock timing,
    device placement ([.to(device)]) and [writer.close()].  The module-level
    choice of the run directory is the [save_dir] of the configuration;
    [num_classes] and [lr] only feed the construction of the model and the
    optimizer, which the start state and the [Backend] stand for. *)

From Stdlib Require Import ZArith QArith Lia Ascii String.
From stdpp Require Import base numbers option list strings pretty gmap.

Local Open Scope Z_scope.

(** ** Numbers and collaborators *)

(** Python/torch floating-point scalars: the operations the orchestrator
    applies to them.  Nothing is assumed about their algebra. *)
Record Numerics (F : Type) := {
  fzero : F;                    (* 0.0 *)
  fhalf : F;                    (* 0.5 *)
  fadd : F → F → F;
  fmul : F → F → F;
  fdiv : F → F → F;
  of_int : Z → F;               (* int -> float conversion *)
  fgt : F → F → bool;           (* a > b *)
}.
Arguments fzero {F}.
Arguments fhalf {F}.
Arguments fadd {F}.
Arguments fmul {F}.
Arguments fdiv {F}.
Arguments of_int {F}.
Arguments fgt {F}.

(** [for phase in ['train', 'val']] *)
Inductive Phase := Train | Val.

(** What the loaders yield: [(inputs, labels)], one clip and one integer
    label per sample. *)
Definition Batch (Clip : Type) : Type := list (Clip * Z).

(** The external collaborators of [train_model], as black boxes.
    [None] stands for a raised exception.  Model, loss and optimizer calls
    are taken as total functions of the trainable state and the batch. *)
Record Backend (F Clip Params OptState : Type) := {
  forward : bool → Params → list Clip → list (list F);
      (* model(inputs) under model.training = b: one row of logits per sample *)
  softmax : list F → list F;                       (* nn.Softmax(dim=1), row-wise *)
  criterion : list (list F) → list Z → F;          (* nn.CrossEntropyLoss *)
  backward_step : Params → OptState → list Clip → list Z → Params * OptState;
      (* loss.backward(); optimizer.step() *)
  scheduler_lr : Z → OptState → OptState;
      (* CosineAnnealingLR writes the new rate into the optimizer's groups *)
  load_compatible : Params → Params → bool;        (* model.load_state_dict accepts *)
  opt_compatible : OptState → OptState → bool;     (* optimizer.load_state_dict accepts *)
  roc_auc_score : list Z → list F → option F;
  recall_score : list Z → list Z → Z → option F;   (* y_true, y_pred, pos_label *)
  loader : Phase → Z → list (Batch Clip);
      (* batches of trainval_loaders[phase] as yielded in the given epoch *)
  dataset_len : Phase → Z;                         (* len(loader.dataset) *)
  test_loader : Z → list (Batch Clip);
  test_len : Z;
}.
Arguments forward {F Clip Params OptState}.
Arguments softmax {F Clip Params OptState}.
Arguments criterion {F Clip Params OptState}.
Arguments backward_step {F Clip Params OptState}.
Arguments scheduler_lr {F Clip Params OptState}.
Arguments load_compatible {F Clip Params OptState}.
Arguments opt_compatible {F Clip Params OptState}.
Arguments roc_auc_score {F Clip Params OptState}.
Arguments recall_score {F Clip Params OptState}.
Arguments loader {F Clip Params OptState}.
Arguments dataset_len {F Clip Params OptState}.
Arguments test_loader {F Clip Params OptState}.
Arguments test_len {F Clip Params OptState}.

(** ** Configuration: the module-level constants and [train_model]'s
    keyword arguments *)
Record Config := {
  dataset : string;        (* 'hmdb51' *)
  save_dir : string;
  num_epochs : Z;          (* nEpochs *)
  resume_epoch : Z;        (* module global, 0 = from scratch *)
  save_epoch : Z;          (* snapshot *)
  useTest : bool;
  test_interval : Z;       (* nTestInterval *)
}.

Definition modelName : string := "C3D".
Definition saveName (cfg : Config) : string := modelName +:+ "-" +:+ dataset cfg.

(** ** Paths *)

Definition starts_with_slash (s : string) : bool :=
  match s with
  | String c _ => if decide (c = "/"%char) then true else false
  | EmptyString => false
  end.

Fixpoint ends_with_slash (s : string) : bool :=
  match s with
  | EmptyString => false
  | String c EmptyString => if decide (c = "/"%char) then true else false
  | String _ s' => ends_with_slash s'
  end.

(** [os.path.join(a, b)] on POSIX, two components. *)
Definition path_join (a b : string) : string :=
  if starts_with_slash b then b
  else match a with
       | EmptyString => b
       | _ => if ends_with_slash a then a +:+ b else a +:+ "/" +:+ b
       end.

(** The directory prefix [os.path.join] puts before a relative component. *)
Definition as_dir (a : string) : string :=
  match a with
  | EmptyString => EmptyString
  | _ => if ends_with_slash a then a else a +:+ "/"
  end.

(** [str(n)] for a Python int. *)
Definition str (n : Z) : string := pretty n.

(** [os.path.join(save_dir, 'models', saveName + '_epoch-' + str(epoch) + '.pth.tar')] *)
Definition ckpt_path (cfg : Config) (epoch : Z) : string :=
  path_join (path_join (save_dir cfg) "models")
            (saveName cfg +:+ "_epoch-" +:+ str epoch +:+ ".pth.tar").

(** [os.path.join(save_dir, f'{phase}_epoch_{epoch}.csv')] inside [save_to_csv],
    called with [save_dir = os.path.join(save_dir, 'predictions')]. *)
Definition csv_path (dir phase : string) (epoch : Z) : string :=
  path_join dir (phase +:+ "_epoch_" +:+ str epoch +:+ ".csv").

Definition predictions_dir (cfg : Config) : string :=
  path_join (save_dir cfg) "predictions".

Definition phase_name (p : Phase) : string :=
  match p with Train => "train" | Val => "val" end.

(** [range(resume_epoch, num_epochs)] *)
Definition epoch_range (cfg : Config) : list Z :=
  seqZ (resume_epoch cfg) (num_epochs cfg - resume_epoch cfg).

(** The file [torch.load] opens when resuming. *)
Definition resume_path (cfg : Config) : string :=
  ckpt_path cfg (resume_epoch cfg - 1).

(** Scalar tags of the test namespace. *)
Definition is_test_tag (tag : string) : bool := String.prefix "data/test_" tag.

(** ** Files, run state, errors *)

Inductive Cell (F : Type) :=
  | CStr (s : string)
  | CInt (z : Z)
  | CFloat (x : F).
Arguments CStr {F}.
Arguments CInt {F}.
Arguments CFloat {F}.

Record Checkpoint (Params OptState : Type) := {
  ck_epoch : Z;
  ck_state_dict : Params;
  ck_opt_dict : OptState;
}.
Arguments ck_epoch {Params OptState}.
Arguments ck_state_dict {Params OptState}.
Arguments ck_opt_dict {Params OptState}.

Inductive File (F Params OptState : Type) :=
  | CkptFile (c : Checkpoint Params OptState)      (* written by torch.save *)
  | CsvFile (rows : list (list (Cell F))).         (* written by csv.writer *)
Arguments CkptFile {F Params OptState}.
Arguments CsvFile {F Params OptState}.

Inductive error :=
  | FileNotFoundError (path : string)   (* torch.load on an absent file *)
  | UnpicklingError                     (* torch.load on a file that is no checkpoint *)
  | StateDictMismatch                   (* model.load_state_dict *)
  | OptimizerMismatch                   (* optimizer.load_state_dict *)
  | EmptyRowError                       (* torch.max over an empty class dimension *)
  | IndexError                          (* probs[:, 1] with fewer than two classes *)
  | ZeroDivisionError
  | AucValueError                       (* roc_auc_score raised *)
  | RecallValueError.                   (* recall_score raised *)

Inductive outcome (A : Type) :=
  | Done (a : A)
  | Fatal (e : error).
Arguments Done {A}.
Arguments Fatal {A}.

Section Orchestrator.
Context {F Clip Params OptState : Type}.
Variable N : Numerics F.
Variable B : Backend F Clip Params OptState.

(** Everything [train_model] reads and mutates. *)
Record State := mkState {
  st_params : Params;                (* model.state_dict() *)
  st_opt : OptState;                 (* optimizer.state_dict() *)
  st_last_epoch : Z;                 (* scheduler.last_epoch *)
  st_training : bool;                (* model.training *)
  st_fs : gmap string (File F Params OptState);
  st_scalars : list (string * F * Z);  (* SummaryWriter stream, oldest first *)
}.

(** A computation either finishes or dies with an exception; in both cases
    the effects performed so far stay in the state. *)
Definition M (A : Type) : Type := State → outcome A * State.

Definition ret {A} (a : A) : M A := λ st, (Done a, st).
Definition raise {A} (e : error) : M A := λ st, (Fatal e, st).
Definition bind {A C} (m : M A) (k : A → M C) : M C :=
  λ st, match m st with
        | (Done a, st') => k a st'
        | (Fatal e, st') => (Fatal e, st')
        end.
Definition get : M State := λ st, (Done st, st).
Definition modify (f : State → State) : M unit := λ st, (Done tt, f st).
Definition lift_opt {A} (e : error) (o : option A) : M A :=
  match o with Some a => ret a | None => raise e end.

Notation "'let!' x ':=' c 'in' k" := (bind c (λ x, k))
  (at level 10, x name, c at level 100, k at level 200).
Notation "c '>>' k" := (bind c (λ _, k))
  (at level 100, k at level 200, right associativity).

Definition set_params (p : Params) (st : State) : State :=
  mkState p (st_opt st) (st_last_epoch st) (st_training st) (st_fs st) (st_scalars st).
Definition set_opt (o : OptState) (st : State) : State :=
  mkState (st_params st) o (st_last_epoch st) (st_training st) (st_fs st) (st_scalars st).
Definition set_training (b : bool) (st : State) : State :=
  mkState (st_params st) (st_opt st) (st_last_epoch st) b (st_fs st) (st_scalars st).
Definition write_file (p : string) (f : File F Params OptState) (st : State) : State :=
  mkState (st_params st) (st_opt st) (st_last_epoch st) (st_training st)
          (<[p := f]> (st_fs st)) (st_scalars st).
(** [writer.add_scalar(tag, value, epoch)] *)
Definition push_scalar (tag : string) (v : F) (epoch : Z) (st : State) : State :=
  mkState (st_params st) (st_opt st) (st_last_epoch st) (st_training st)
          (st_fs st) (st_scalars st ++ [(tag, v, epoch)]).
Definition add_scalar (tag : string) (v : F) (epoch : Z) : M unit :=
  modify (push_scalar tag v epoch).
(** [scheduler.step()] *)
Definition scheduler_step (st : State) : State :=
  mkState (st_params st) (scheduler_lr B (st_last_epoch st + 1) (st_opt st))
          (st_last_epoch st + 1) (st_training st) (st_fs st) (st_scalars st).
(** [loss.backward(); optimizer.step()] on the current batch *)
Definition optimise (inputs : list Clip) (labels : list Z) (st : State) : State :=
  let po := backward_step B (st_params st) (st_opt st) inputs labels in
  set_opt po.2 (set_params po.1 st).

(** *** [save_to_csv] *)
Definition csv_header : list (Cell F) := [CStr "TrueLabel"; CStr "Probability"].
Definition csv_row (lp : Z * F) : list (Cell F) := [CInt lp.1; CFloat lp.2].

Definition save_to_csv (epoch : Z) (phase : string) (labels : list Z)
    (probs : list F) (dir : string) : M unit :=
  let filename := csv_path dir phase epoch in
  modify (write_file filename (CsvFile (csv_header :: map csv_row (zip labels probs)))).

(** *** Per-batch work *)

(** [running_loss], [running_corrects], [running_probs], [running_labels] *)
Record Running := mkRunning {
  running_loss : F;
  running_corrects : Z;
  running_probs : list F;
  running_labels : list Z;
}.
Definition running0 : Running := mkRunning (fzero N) 0 [] [].

(** [torch.max(row)[1]]: index of the first maximal entry. *)
Fixpoint argmax_from (best : F) (besti i : Z) (xs : list F) : Z :=
  match xs with
  | [] => besti
  | x :: xs' =>
      if fgt N x best then argmax_from x i (i + 1) xs'
      else argmax_from best besti (i + 1) xs'
  end.
Definition argmax (row : list F) : option Z :=
  match row with
  | [] => None
  | x :: xs => Some (argmax_from x 0 1 xs)
  end.
(** [torch.max(probs, 1)[1]] *)
Definition torch_max_indices (probs : list (list F)) : option (list Z) :=
  mapM argmax probs.
(** [probs[:, 1].tolist()] *)
Definition column1 (probs : list (list F)) : option (list F) :=
  mapM (λ row : list F, row !! 1%nat) probs.
(** [torch.sum(preds == labels.data)] *)
Fixpoint count_equal (preds labels : list Z) : Z :=
  match preds, labels with
  | p :: ps, l :: ls => (if decide (p = l) then 1 else 0) + count_equal ps ls
  | _, _ => 0
  end.

(** Body of [for inputs, labels in tqdm(trainval_loaders[phase])].
    [optimizer.zero_grad()] only clears the gradient buffers, which are not
    part of [state_dict()] and are rewritten by the next [backward()];
    [torch.no_grad()] does not change the values [model(inputs)] returns. *)
Definition trainval_batch (phase : Phase) (b : Batch Clip) (acc : Running) : M Running :=
  let inputs := b.*1 in
  let labels := b.*2 in
  let! st := get in
  let outputs :=
    match phase with
    | Train => forward B (st_training st) (st_params st) inputs
    | Val => forward B (st_training st) (st_params st) inputs
    end in
  let probs := map (softmax B) outputs in
  let! preds := lift_opt EmptyRowError (torch_max_indices probs) in
  let loss := criterion B outputs labels in
  (match phase with
   | Train => modify (optimise inputs labels)
   | Val => ret tt
   end) >>
  let loss_sum :=
    fadd N (running_loss acc) (fmul N loss (of_int N (Z.of_nat (length inputs)))) in
  let corrects := running_corrects acc + count_equal preds labels in
  let! col := lift_opt IndexError (column1 probs) in
  ret (mkRunning loss_sum corrects (running_probs acc ++ col) (running_labels acc ++ labels)).

Fixpoint trainval_batches (phase : Phase) (bs : list (Batch Clip)) (acc : Running)
    : M Running :=
  match bs with
  | [] => ret acc
  | b :: bs' =>
      let! acc' := trainval_batch phase b acc in
      trainval_batches phase bs' acc'
  end.

(** Body of [for inputs, labels in tqdm(test_dataloader)]. *)
Definition test_batch (b : Batch Clip) (acc : Running) : M Running :=
  let inputs := b.*1 in
  let labels := b.*2 in
  let! st := get in
  let outputs := forward B (st_training st) (st_params st) inputs in
  let probs := map (softmax B) outputs in
  let! preds := lift_opt EmptyRowError (torch_max_indices probs) in
  let loss := criterion B outputs labels in
  let loss_sum :=
    fadd N (running_loss acc) (fmul N loss (of_int N (Z.of_nat (length inputs)))) in
  let corrects := running_corrects acc + count_equal preds labels in
  let! col := lift_opt IndexError (column1 probs) in
  ret (mkRunning loss_sum corrects (running_probs acc ++ col) (running_labels acc ++ labels)).

Fixpoint test_batches (bs : list (Batch Clip)) (acc : Running) : M Running :=
  match bs with
  | [] => ret acc
  | b :: bs' =>
      let! acc' := test_batch b acc in
      test_batches bs' acc'
  end.

(** *** Epoch metrics *)

Record Metrics := mkMetrics {
  epoch_loss : F;
  epoch_acc : F;
  epoch_auc : F;
  epoch_sensitivity : F;
  epoch_specificity : F;
}.

(** [[1 if p > 0.5 else 0 for p in running_probs]] *)
Definition threshold (probs : list F) : list Z :=
  map (λ p, if fgt N p (fhalf N) then 1 else 0) probs.

(** The five assignments after the batch loop.  [running_loss / size] is a
    Python float division and raises on a zero size. *)
Definition epoch_metrics (size : Z) (acc : Running) : M Metrics :=
  if decide (size = 0) then raise ZeroDivisionError else
  let loss := fdiv N (running_loss acc) (of_int N size) in
  let accuracy := fdiv N (of_int N (running_corrects acc)) (of_int N size) in
  let! auc := lift_opt AucValueError
                (roc_auc_score B (running_labels acc) (running_probs acc)) in
  let! sens := lift_opt RecallValueError
                (recall_score B (running_labels acc) (threshold (running_probs acc)) 1) in
  let! spec := lift_opt RecallValueError
                (recall_score B (running_labels acc) (threshold (running_probs acc)) 0) in
  ret (mkMetrics loss accuracy auc sens spec).

Definition log_train (m : Metrics) (epoch : Z) : M unit :=
  add_scalar "data/train_loss_epoch" (epoch_loss m) epoch >>
  add_scalar "data/train_acc_epoch" (epoch_acc m) epoch >>
  add_scalar "data/train_auc_epoch" (epoch_auc m) epoch >>
  add_scalar "data/train_sensitivity_epoch" (epoch_sensitivity m) epoch >>
  add_scalar "data/train_specificity_epoch" (epoch_specificity m) epoch.

Definition log_val (m : Metrics) (epoch : Z) : M unit :=
  add_scalar "data/val_loss_epoch" (epoch_loss m) epoch >>
  add_scalar "data/val_acc_epoch" (epoch_acc m) epoch >>
  add_scalar "data/val_auc_epoch" (epoch_auc m) epoch >>
  add_scalar "data/val_sensitivity_epoch" (epoch_sensitivity m) epoch >>
  add_scalar "data/val_specificity_epoch" (epoch_specificity m) epoch.

Definition log_test (m : Metrics) (epoch : Z) : M unit :=
  add_scalar "data/test_loss_epoch" (epoch_loss m) epoch >>
  add_scalar "data/test_acc_epoch" (epoch_acc m) epoch >>
  add_scalar "data/test_auc_epoch" (epoch_auc m) epoch >>
  add_scalar "data/test_sensitivity_epoch" (epoch_sensitivity m) epoch >>
  add_scalar "data/test_specificity_epoch" (epoch_specificity m) epoch.

(** *** One phase, the checkpoint, the test pass, one epoch *)

(** Body of [for phase in ['train', 'val']]. *)
Definition run_phase (cfg : Config) (phase : Phase) (epoch : Z) : M unit :=
  (match phase with
   | Train => modify scheduler_step >> modify (set_training true)
   | Val => modify (set_training false)
   end) >>
  let! acc := trainval_batches phase (loader B phase epoch) running0 in
  let! m := epoch_metrics (dataset_len B phase) acc in
  save_to_csv epoch (phase_name phase) (running_labels acc) (running_probs acc)
              (predictions_dir cfg) >>
  match phase with
  | Train => log_train m epoch
  | Val => log_val m epoch
  end.

(** [torch.save({'epoch': epoch + 1, 'state_dict': ..., 'opt_dict': ...}, path)] *)
Definition save_checkpoint (cfg : Config) (epoch : Z) : M unit :=
  modify (λ st, write_file (ckpt_path cfg epoch)
                  (CkptFile {| ck_epoch := epoch + 1;
                               ck_state_dict := st_params st;
                               ck_opt_dict := st_opt st |}) st).

(** [if epoch % save_epoch == (save_epoch - 1): torch.save(...)];
    Python's [%] is floored like [Z.modulo] and raises on a zero divisor. *)
Definition maybe_checkpoint (cfg : Config) (epoch : Z) : M unit :=
  if decide (save_epoch cfg = 0) then raise ZeroDivisionError else
  if decide (epoch `mod` save_epoch cfg = save_epoch cfg - 1)
  then save_checkpoint cfg epoch
  else ret tt.

(** Body of [if useTest and epoch % test_interval == (test_interval - 1)]. *)
Definition test_pass (cfg : Config) (epoch : Z) : M unit :=
  modify (set_training false) >>
  let! acc := test_batches (test_loader B epoch) running0 in
  let! m := epoch_metrics (test_len B) acc in
  save_to_csv epoch "test" (running_labels acc) (running_probs acc)
              (predictions_dir cfg) >>
  log_test m epoch.

Definition maybe_test (cfg : Config) (epoch : Z) : M unit :=
  if useTest cfg then
    if decide (test_interval cfg = 0) then raise ZeroDivisionError else
    if decide (epoch `mod` test_interval cfg = test_interval cfg - 1)
    then test_pass cfg epoch
    else ret tt
  else ret tt.

(** Body of [for epoch in range(resume_epoch, num_epochs)]. *)
Definition run_epoch (cfg : Config) (epoch : Z) : M unit :=
  run_phase cfg Train epoch >>
  run_phase cfg Val epoch >>
  maybe_checkpoint cfg epoch >>
  maybe_test cfg epoch.

Fixpoint epoch_loop (cfg : Config) (epochs : list Z) : M unit :=
  match epochs with
  | [] => ret tt
  | e :: es => run_epoch cfg e >> epoch_loop cfg es
  end.

(** *** Resume and [train_model] *)

(** The [else] branch of [if resume_epoch == 0]. *)
Definition load_checkpoint (cfg : Config) : M unit :=
  let! st := get in
  match st_fs st !! resume_path cfg with
  | None => raise (FileNotFoundError (resume_path cfg))
  | Some (CsvFile _) => raise UnpicklingError
  | Some (CkptFile checkpoint) =>
      (if load_compatible B (st_params st) (ck_state_dict checkpoint)
       then modify (set_params (ck_state_dict checkpoint))
       else raise StateDictMismatch) >>
      (if opt_compatible B (st_opt st) (ck_opt_dict checkpoint)
       then modify (set_opt (ck_opt_dict checkpoint))
       else raise OptimizerMismatch)
  end.

(** [train_model], started in a state holding the freshly constructed model,
    optimizer and scheduler, the file system, and an empty scalar stream. *)
Definition train_model (cfg : Config) : M unit :=
  (if decide (resume_epoch cfg = 0) then ret tt else load_checkpoint cfg) >>
  epoch_loop cfg (epoch_range cfg).

(** *** Reference quantities the claims speak about

    These follow the specification's wording; the theorems below relate
    them to what [train_model] computes. *)

(** What one batch does to the trainable state in a given phase. *)
Definition after_batch (phase : Phase) (b : Batch Clip) (st : State) : State :=
  match phase with
  | Train => optimise b.*1 b.*2 st
  | Val => st
  end.

(** Class-probability rows and loss of the model on batch [b] in state [st]. *)
Definition batch_probs (st : State) (b : Batch Clip) : list (list F) :=
  map (softmax B) (forward B (st_training st) (st_params st) b.*1).
Definition batch_loss (st : State) (b : Batch Clip) : F :=
  criterion B (forward B (st_training st) (st_params st) b.*1) b.*2.

(** Probability rows of all samples of a split, in encounter order. *)
Fixpoint observed_probs (phase : Phase) (bs : list (Batch Clip)) (st : State)
    : list (list F) :=
  match bs with
  | [] => []
  | b :: bs' => batch_probs st b ++ observed_probs phase bs' (after_batch phase b st)
  end.

(** (batch loss, batch size) of every batch of a split, in encounter order. *)
Fixpoint observed_losses (phase : Phase) (bs : list (Batch Clip)) (st : State)
    : list (F * Z) :=
  match bs with
  | [] => []
  | b :: bs' =>
      (batch_loss st b, Z.of_nat (length b))
      :: observed_losses phase bs' (after_batch phase b st)
  end.

(** Sum of (batch loss x batch size), accumulated from [s] in encounter order. *)
Definition weighted_sum (s : F) (ls : list (F * Z)) : F :=
  fold_left (λ s' lz, fadd N s' (fmul N lz.1 (of_int N lz.2))) ls s.

(** Number of samples whose arg-max class equals the true label. *)
Fixpoint argmax_hits (rows : list (list F)) (labels : list Z) : Z :=
  match rows, labels with
  | r :: rows', l :: labels' =>
      (if decide (argmax r = Some l) then 1 else 0) + argmax_hits rows' labels'
  | _, _ => 0
  end.

(** Arg-max hits summed batch by batch, as the loop counts them. *)
Fixpoint observed_hits (phase : Phase) (bs : list (Batch Clip)) (st : State) : Z :=
  match bs with
  | [] => 0
  | b :: bs' =>
      argmax_hits (batch_probs st b) b.*2 + observed_hits phase bs' (after_batch phase b st)
  end.

(** Trainable state after all batches of a phase. *)
Definition after_batches (phase : Phase) (bs : list (Batch Clip)) (st : State) : State :=
  foldl (λ s b, after_batch phase b s) st bs.

(** The five scalar-log entries of one (epoch, phase): tag scheme
    [data/<phase>_<metric>_epoch]. *)
Definition phase_scalars (name : string) (m : Metrics) (epoch : Z)
    : list (string * F * Z) :=
  [ ("data/" +:+ name +:+ "_loss_epoch", epoch_loss m, epoch);
    ("data/" +:+ name +:+ "_acc_epoch", epoch_acc m, epoch);
    ("data/" +:+ name +:+ "_auc_epoch", epoch_auc m, epoch);
    ("data/" +:+ name +:+ "_sensitivity_epoch", epoch_sensitivity m, epoch);
    ("data/" +:+ name +:+ "_specificity_epoch", epoch_specificity m, epoch) ].

(** The prediction dump of accumulated labels and probabilities. *)
Definition dump_of (labels : list Z) (probs : list F) : File F Params OptState :=
  CsvFile (csv_header :: map csv_row (zip labels probs)).

(** State in which the batches of a phase start. *)
Definition enter_phase (phase : Phase) (st : State) : State :=
  match phase with
  | Train => set_training true (scheduler_step st)
  | Val => set_training false st
  end.

(** Accuracy recomputed from a prediction dump: predict 1 iff the
    probability exceeds 0.5, count agreements with the label, divide by the
    number of data rows. *)
Definition row_hit (row : list (Cell F)) : Z :=
  match row with
  | [CInt l; CFloat p] =>
      if decide ((if fgt N p (fhalf N) then 1 else 0) = l) then 1 else 0
  | _ => 0
  end.
Definition dump_hits (data : list (list (Cell F))) : Z :=
  foldr (λ row n, row_hit row + n) 0 data.
Definition dump_accuracy (rows : list (list (Cell F))) : F :=
  fdiv N (of_int N (dump_hits (tail rows)))
         (of_int N (Z.of_nat (length (tail rows)))).

(** A two-class probability row on which arg-max and the 0.5 threshold agree
    (as they do when the two entries sum to one). *)
Definition two_class_row (row : list F) : bool :=
  match row with
  | [p0; p1] => bool_decide (fgt N p1 p0 = fgt N p1 (fhalf N))
  | _ => false
  end.

(** *** Frame relations between the state before and after a computation *)

(** [m] relates every start state to its end state by [R], whether it
    finishes or dies. *)
Definition keeps {A} (R : relation State) (m : M A) : Prop :=
  ∀ st, R st (m st).2.

(** Model parameters and optimizer state are the same. *)
Definition same_trainable : relation State :=
  λ st st', st_params st' = st_params st ∧ st_opt st' = st_opt st.

(** Files and scalar stream are the same. *)
Definition same_outputs : relation State :=
  λ st st', st_fs st' = st_fs st ∧ st_scalars st' = st_scalars st.

(** Scheduler counter, learning rate and every checkpoint file are the same. *)
Definition same_schedule_and_checkpoints (cfg : Config) : relation State :=
  λ st st', st_last_epoch st' = st_last_epoch st ∧ st_opt st' = st_opt st ∧
            ∀ k, st_fs st' !! ckpt_path cfg k = st_fs st !! ckpt_path cfg k.

(** Checkpoint files of the epochs selected by [P] are the same. *)
Definition same_checkpoints_on (cfg : Config) (P : Z → Prop) : relation State :=
  λ st st', ∀ k, P k → st_fs st' !! ckpt_path cfg k = st_fs st !! ckpt_path cfg k.

(** A correctly keyed checkpoint store stays correctly keyed. *)
Definition keying_preserved (cfg : Config) : relation State :=
  λ st st', (∀ k ck, st_fs st !! ckpt_path cfg k = Some (CkptFile ck) → ck_epoch ck = k + 1) →
            (∀ k ck, st_fs st' !! ckpt_path cfg k = Some (CkptFile ck) → ck_epoch ck = k + 1).

(** No test dump was written and no test scalar was appended. *)
Definition no_test_output (cfg : Config) : relation State :=
  λ st st',
    (∀ e, st_fs st' !! csv_path (predictions_dir cfg) "test" e
          = st_fs st !! csv_path (predictions_dir cfg) "test" e) ∧
    ∃ new, st_scalars st' = st_scalars st ++ new ∧
           Forall (λ s : string * F * Z, is_test_tag s.1.1 = false) new.

(** *** Further frame relations *)

(** The scheduler counter is the same. *)
Definition same_last_epoch : relation State :=
  λ st st', st_last_epoch st' = st_last_epoch st.

(** The scalar stream is the same. *)
Definition same_scalars : relation State :=
  λ st st', st_scalars st' = st_scalars st.

(** The file at path [p] is the same. *)
Definition same_file (p : string) : relation State :=
  λ st st', st_fs st' !! p = st_fs st !! p.

(** Every file outside the directories [d1] and [d2] is the same. *)
Definition same_files_outside (d1 d2 : string) : relation State :=
  λ st st', ∀ p, String.prefix d1 p = false → String.prefix d2 p = false →
                 st_fs st' !! p = st_fs st !! p.

End Orchestrator.

(** A true-label list in which exactly one class occurs. *)
Definition single_class (labels : list Z) : bool :=
  match labels with
  | [] => false
  | c :: rest => forallb (Z.eqb c) rest
  end.

(** A checkpoint store in which the file named after epoch [k] holds the
    state saved at the end of epoch [k] (stored epoch field [k + 1]). *)
Definition keyed_by_epoch {F Params OptState : Type} (cfg : Config)
    (fs : gmap string (File F Params OptState)) : Prop :=
  ∀ k ck, fs !! ckpt_path cfg k = Some (CkptFile ck) → ck_epoch ck = k + 1.

(** The same configuration, resuming at [r]. *)
Definition with_resume (r : Z) (cfg : Config) : Config :=
  {| dataset := dataset cfg; save_dir := save_dir cfg; num_epochs := num_epochs cfg;
     resume_epoch := r; save_epoch := save_epoch cfg; useTest := useTest cfg;
     test_interval := test_interval cfg |}.

(** The phase names [save_to_csv] is called with. *)
Definition dump_name (n : string) : Prop := n = "train" ∨ n = "val" ∨ n = "test".

(** The condition [useTest and epoch % test_interval == (test_interval - 1)],
    where it can be evaluated. *)
Definition test_due (cfg : Config) (e : Z) : bool :=
  useTest cfg && bool_decide (test_interval cfg ≠ 0)
  && bool_decide (e `mod` test_interval cfg = test_interval cfg - 1).

(** The same configuration with another test interval. *)
Definition with_test_interval (t : Z) (cfg : Config) : Config :=
  {| dataset := dataset cfg; save_dir := save_dir cfg; num_epochs := num_epochs cfg;
     resume_epoch := resume_epoch cfg; save_epoch := save_epoch cfg;
     useTest := useTest cfg; test_interval := t |}.

(** The two directories a run writes into. *)
Definition models_prefix (cfg : Config) : string :=
  as_dir (save_dir cfg) +:+ "models" +:+ "/".
Definition predictions_prefix (cfg : Config) : string :=
  as_dir (save_dir cfg) +:+ "predictions" +:+ "/".

(** ** A small concrete instance

    Rational scalars; a table-lookup "network" whose clips carry the logits
    it answers with; parameters count the optimizer steps taken.  Used to
    run the orchestrator on explicit inputs. *)
Module Demo.

Definition qnum : Numerics Q := {|
  fzero := 0%Q;
  fhalf := (1 # 2)%Q;
  fadd := Qplus;
  fmul := Qmult;
  fdiv := Qdiv;
  of_int := inject_Z;
  fgt := λ a b, negb (Qle_bool a b);
|}.

Definition qsum (row : list Q) : Q := foldr Qplus 0%Q row.
Definition normalise (row : list Q) : list Q := map (λ x, Qred (x / qsum row)) row.

(** Pairs (positive, negative) ranked correctly count 1, ties 1/2. *)
Definition pair_score (p n : Q) : Q :=
  if negb (Qle_bool p n) then 1%Q else if Qeq_bool p n then (1 # 2)%Q else 0%Q.
Definition scores_of (c : Z) (labels : list Z) (probs : list Q) : list Q :=
  omap (λ lp : Z * Q, if decide (lp.1 = c) then Some lp.2 else None) (zip labels probs).
Definition auc (labels : list Z) (probs : list Q) : option Q :=
  if single_class labels then None else
  match labels with
  | [] => None
  | _ =>
      let pos := scores_of 1 labels probs in
      let neg := scores_of 0 labels probs in
      Some (Qred (qsum (p ← pos; n ← neg; [pair_score p n])
                  / inject_Z (Z.of_nat (length pos * length neg))))
  end.
Definition recall (labels preds : list Z) (pos_label : Z) : option Q :=
  let relevant := filter (λ lp : Z * Z, lp.1 = pos_label) (zip labels preds) in
  let hits := filter (λ lp : Z * Z, lp.2 = pos_label) relevant in
  Some (Qred (inject_Z (Z.of_nat (length hits)) / inject_Z (Z.of_nat (length relevant)))).

Definition Clip : Type := list Q.

Definition backend (train val test : list (Batch Clip)) : Backend Q Clip Z Z := {|
  forward := λ _ _ xs, xs;
  softmax := normalise;
  criterion := λ _ labels, inject_Z (1 + foldr Z.add 0 labels);
  backward_step := λ p o _ _, (p + 1, o);
  scheduler_lr := λ e _, e;
  load_compatible := λ _ sd, bool_decide (0 ≤ sd);
  opt_compatible := λ _ od, bool_decide (0 ≤ od);
  roc_auc_score := auc;
  recall_score := recall;
  loader := λ ph _, match ph with Train => train | Val => val end;
  dataset_len := λ ph, Z.of_nat (length (concat (match ph with Train => train | Val => val end)));
  test_loader := λ _, test;
  test_len := Z.of_nat (length (concat test));
|}.

(** Two-class clips: class 1 favoured, class 0 favoured. *)
Definition hi : Clip := [1; 3]%Q.
Definition lo : Clip := [3; 1]%Q.
(** Three-class clips: class 1 wins with probability 0.4, class 0 wins. *)
Definition mid3 : Clip := [3; 4; 3]%Q.
Definition low3 : Clip := [4; 3; 3]%Q.

Definition mixed : list (Batch Clip) := [[(hi, 1); (lo, 0)]; [(hi, 0); (lo, 0)]].
Definition only0 : list (Batch Clip) := [[(lo, 0); (lo, 0)]; [(hi, 0)]].
Definition three : list (Batch Clip) := [[(mid3, 1); (low3, 0)]].

Definition cfg1 : Config := {|
  dataset := "hmdb51"; save_dir := "/work/run/run_0"; num_epochs := 1;
  resume_epoch := 0; save_epoch := 1; useTest := true; test_interval := 1 |}.
Definition cfg20 : Config := {|
  dataset := "hmdb51"; save_dir := "/work/run/run_0"; num_epochs := 20;
  resume_epoch := 0; save_epoch := 10; useTest := true; test_interval := 1 |}.
Definition cfg_notest : Config := {|
  dataset := "hmdb51"; save_dir := "/work/run/run_0"; num_epochs := 2;
  resume_epoch := 0; save_epoch := 1; useTest := false; test_interval := 1 |}.

Definition cfg_zero : Config := {|
  dataset := "hmdb51"; save_dir := "/work/run/run_0"; num_epochs := 3;
  resume_epoch := 0; save_epoch := 0; useTest := true; test_interval := 0 |}.
Definition cfg_negative : Config := {|
  dataset := "hmdb51"; save_dir := "/work/run/run_0"; num_epochs := 2;
  resume_epoch := 0; save_epoch := -1; useTest := false; test_interval := 0 |}.
Definition cfg_resume10 : Config := {|
  dataset := "hmdb51"; save_dir := "/work/run/run_0"; num_epochs := 20;
  resume_epoch := 10; save_epoch := 10; useTest := true; test_interval := 1 |}.

(** A fresh process: new model and optimizer, nothing on disk, empty log. *)
Definition fresh : @State Q Z Z := mkState 0 0 0 true ∅ [].

(** A fresh process that finds one checkpoint, stored under the name of
    epoch 10. *)
Definition resumable : @State Q Z Z :=
  mkState 0 0 0 true
    {[ ckpt_path cfg_resume10 10 :=
         CkptFile {| ck_epoch := 11; ck_state_dict := 5; ck_opt_dict := 5 |} ]} [].

(** A fresh process that finds the checkpoint written at the end of epoch 9. *)
Definition saved9 : @State Q Z Z :=
  mkState 0 0 0 true
    {[ ckpt_path cfg_resume10 9 :=
         CkptFile {| ck_epoch := 10; ck_state_dict := 5; ck_opt_dict := 5 |} ]} [].

End Demo.

(** ** Strings and paths *)

Lemma append_assoc (a b c : string) : (a +:+ b) +:+ c = a +:+ (b +:+ c).
Proof.
  induction a as [|x a IH]; [done|].
  change (String x ((a +:+ b) +:+ c) = String x (a +:+ (b +:+ c))). by rewrite IH.
Qed.

Lemma length_append (a b : string) :
  String.length (a +:+ b) = (String.length a + String.length b)%nat.
Proof.
  induction a as [|x a IH]; [done|].
  change (S (String.length (a +:+ b)) = S (String.length a + String.length b)).
  by rewrite IH.
Qed.

Lemma append_inv_tail (a b t : string) : a +:+ t = b +:+ t → a = b.
Proof.
  revert b. induction a as [|x a IH]; intros [|y b] H.
  - done.
  - apply (f_equal String.length) in H. rewrite !length_append in H. cbn in H. lia.
  - apply (f_equal String.length) in H. rewrite !length_append in H. cbn in H. lia.
  - change (String x (a +:+ t) = String y (b +:+ t)) in H.
    injection H as -> H. f_equal. by apply IH.
Qed.

Lemma ends_with_slash_append (a : string) (c : ascii) (b : string) :
  ends_with_slash (a +:+ String c b) = ends_with_slash (String c b).
Proof.
  induction a as [|x a IH]; [done|].
  change (String x a +:+ String c b) with (String x (a +:+ String c b)).
  rewrite <- IH. destruct a; reflexivity.
Qed.

Lemma path_join_relative (a b : string) :
  starts_with_slash b = false → path_join a b = as_dir a +:+ b.
Proof.
  intros Hb. unfold path_join, as_dir. rewrite Hb.
  destruct a as [|x a]; [done|]. cbv iota.
  destruct (ends_with_slash (String x a)); [done|]. by rewrite append_assoc.
Qed.

Lemma path_join_subdir (a d : string) (c : ascii) (rest b : string) :
  d = String c rest → starts_with_slash d = false →
  ends_with_slash d = false → starts_with_slash b = false →
  path_join (path_join a d) b = as_dir a +:+ d +:+ "/" +:+ b.
Proof.
  intros Hd Hd1 Hd2 Hb.
  rewrite (path_join_relative a d Hd1), (path_join_relative _ b Hb).
  assert (as_dir (as_dir a +:+ d) = (as_dir a +:+ d) +:+ "/") as ->.
  { unfold as_dir at 1. subst d. rewrite ends_with_slash_append, Hd2.
    destruct (as_dir a); reflexivity. }
  by rewrite !append_assoc.
Qed.

Lemma ckpt_path_eq (cfg : Config) (e : Z) :
  ckpt_path cfg e =
  as_dir (save_dir cfg) +:+ "models" +:+ "/" +:+
  saveName cfg +:+ "_epoch-" +:+ str e +:+ ".pth.tar".
Proof. by apply (path_join_subdir _ "models" "m" "odels"). Qed.

Lemma csv_path_eq (cfg : Config) (c : ascii) (name : string) (e : Z) :
  c ≠ "/"%char →
  csv_path (predictions_dir cfg) (String c name) e =
  as_dir (save_dir cfg) +:+ "predictions" +:+ "/" +:+
  String c name +:+ "_epoch_" +:+ str e +:+ ".csv".
Proof.
  intros Hc. unfold csv_path, predictions_dir.
  apply (path_join_subdir _ "predictions" "p" "redictions"); try reflexivity.
  change (starts_with_slash (String c (name +:+ "_epoch_" +:+ str e +:+ ".csv")) = false).
  unfold starts_with_slash. by destruct (decide (c = "/"%char)).
Qed.

(** The checkpoint file name determines the epoch. *)
Lemma ckpt_path_inj (cfg : Config) (e e' : Z) :
  ckpt_path cfg e = ckpt_path cfg e' → e = e'.
Proof.
  rewrite !ckpt_path_eq. intros H.
  do 5 apply String.app_inj in H.
  apply append_inv_tail in H. by apply pretty_Z_inj in H.
Qed.

Lemma ckpt_csv_ne (cfg : Config) (k : Z) (c : ascii) (name : string) (e : Z) :
  c ≠ "/"%char → csv_path (predictions_dir cfg) (String c name) e ≠ ckpt_path cfg k.
Proof.
  intros Hc. rewrite ckpt_path_eq, csv_path_eq by done. intros H.
  apply String.app_inj in H. discriminate H.
Qed.

Lemma phase_csv_ne_ckpt (cfg : Config) (ph : Phase) (e k : Z) :
  csv_path (predictions_dir cfg) (phase_name ph) e ≠ ckpt_path cfg k.
Proof. destruct ph; by apply ckpt_csv_ne. Qed.

Lemma test_csv_ne_ckpt (cfg : Config) (e k : Z) :
  csv_path (predictions_dir cfg) "test" e ≠ ckpt_path cfg k.
Proof. by apply ckpt_csv_ne. Qed.

Lemma phase_csv_ne_test (cfg : Config) (ph : Phase) (e e' : Z) :
  csv_path (predictions_dir cfg) (phase_name ph) e
  ≠ csv_path (predictions_dir cfg) "test" e'.
Proof.
  destruct ph; cbn [phase_name]; rewrite !csv_path_eq by done; intros H;
    do 3 apply String.app_inj in H; discriminate H.
Qed.

(** ** The monad and frame relations *)

Section Facts.
Context {F Clip Params OptState : Type}.
Variable N : Numerics F.
Variable B : Backend F Clip Params OptState.

Abbreviation St := (@State F Params OptState).
Abbreviation Comp := (@M F Params OptState).

Lemma bind_run_done {A C} (m : Comp A) (k : A → Comp C) (st st1 : St) (a : A) :
  m st = (Done a, st1) → bind m k st = k a st1.
Proof. unfold bind. by intros ->. Qed.

Lemma bind_run_fatal {A C} (m : Comp A) (k : A → Comp C) (st st1 : St) (e : error) :
  m st = (Fatal e, st1) → bind m k st = (Fatal e, st1).
Proof. unfold bind. by intros ->. Qed.

Lemma bind_done_inv {A C} (m : Comp A) (k : A → Comp C) (st st' : St) (c : C) :
  bind m k st = (Done c, st') →
  ∃ a st1, m st = (Done a, st1) ∧ k a st1 = (Done c, st').
Proof.
  unfold bind. destruct (m st) as [[a|e] st1]; cbn; [|done]. intros H. by exists a, st1.
Qed.

Lemma lift_opt_done_inv {A} (e : error) (o : option A) (st st' : St) (a : A) :
  lift_opt e o st = (Done a, st') → o = Some a ∧ st' = st.
Proof. destruct o; unfold lift_opt, ret, raise; intros H; by simplify_eq. Qed.

Lemma keeps_ret {A} (R : relation St) `{!Reflexive R} (a : A) : keeps R (ret a).
Proof. intros st. apply reflexivity. Qed.

Lemma keeps_raise {A} (R : relation St) `{!Reflexive R} (e : error) :
  keeps R (raise (A:=A) e).
Proof. intros st. apply reflexivity. Qed.

Lemma keeps_get (R : relation St) `{!Reflexive R} : keeps R get.
Proof. intros st. apply reflexivity. Qed.

Lemma keeps_lift_opt {A} (R : relation St) `{!Reflexive R} (e : error) (o : option A) :
  keeps R (lift_opt e o).
Proof. destruct o; [apply keeps_ret | apply keeps_raise]; done. Qed.

Lemma keeps_modify (R : relation St) (f : St → St) :
  (∀ st, R st (f st)) → keeps R (modify f).
Proof. intros H st. apply H. Qed.

Lemma keeps_bind {A C} (R : relation St) `{!Transitive R}
    (m : Comp A) (k : A → Comp C) :
  keeps R m → (∀ a, keeps R (k a)) → keeps R (bind m k).
Proof.
  intros Hm Hk st. unfold bind. specialize (Hm st).
  destruct (m st) as [[a|e] st1]; cbn in *; [|done].
  etrans; [exact Hm|]. apply Hk.
Qed.

Global Instance same_trainable_po : PreOrder (@same_trainable F Params OptState).
Proof.
  split; [by intros st|].
  intros a b c [? ?] [? ?]. split; congruence.
Qed.

Global Instance same_outputs_po : PreOrder (@same_outputs F Params OptState).
Proof.
  split; [by intros st|].
  intros a b c [? ?] [? ?]. split; congruence.
Qed.

Global Instance same_sched_ckpt_po (cfg : Config) :
  PreOrder (@same_schedule_and_checkpoints F Params OptState cfg).
Proof.
  split; [by intros st|].
  intros a b c (? & ? & H1) (? & ? & H2). repeat split; [congruence..|].
  intros k. by rewrite H2, H1.
Qed.

Global Instance same_ckpt_on_po (cfg : Config) (P : Z → Prop) :
  PreOrder (@same_checkpoints_on F Params OptState cfg P).
Proof.
  split; [by intros st|].
  intros a b c H1 H2 k Hk. by rewrite H2, H1.
Qed.

Global Instance keying_preserved_po (cfg : Config) :
  PreOrder (@keying_preserved F Params OptState cfg).
Proof.
  split; [intros st H; exact H|].
  intros a b c H1 H2 Ha. apply H2, H1, Ha.
Qed.

Global Instance no_test_output_po (cfg : Config) :
  PreOrder (@no_test_output F Params OptState cfg).
Proof.
  split.
  - intros st. split; [done|]. exists []. by rewrite app_nil_r.
  - intros a b c [H1 (n1 & E1 & F1)] [H2 (n2 & E2 & F2)]. split.
    + intros e. by rewrite H2, H1.
    + exists (n1 ++ n2). rewrite E2, E1, app_assoc. split; [done|].
      by apply Forall_app.
Qed.

Ltac keeps_tac :=
  repeat match goal with
    | |- keeps _ (ret _) => apply keeps_ret; apply _
    | |- keeps _ (raise _) => apply keeps_raise; apply _
    | |- keeps _ get => apply keeps_get; apply _
    | |- keeps _ (lift_opt _ _) => apply keeps_lift_opt; apply _
    | |- keeps _ (bind _ _) => apply keeps_bind; [apply _ | | intros ?]
    | |- keeps _ (modify _) => apply keeps_modify; intros ?
    | |- keeps _ (let _ := _ in _) => cbv zeta
    | |- keeps _ (if ?c then _ else _) => destruct c
    | |- keeps _ (match ?c with _ => _ end) => destruct c
    end.

Section Frames.
Context (R : relation St) `{!PreOrder R}.

Lemma keeps_trainval_batch (ph : Phase) (b : Batch Clip) (acc : Running) :
  (ph = Train → ∀ i l st, R st (optimise B i l st)) →
  keeps R (trainval_batch N B ph b acc).
Proof.
  intros Hopt. unfold trainval_batch.
  apply keeps_bind; [apply _ | apply keeps_get; apply _ | intros st0].
  apply keeps_bind; [apply _ | apply keeps_lift_opt; apply _ | intros preds].
  apply keeps_bind; [apply _ | | intros _].
  - destruct ph; [|apply keeps_ret; apply _].
    apply keeps_modify. intros st. by apply Hopt.
  - keeps_tac.
Qed.

Lemma keeps_trainval_batches (ph : Phase) (bs : list (Batch Clip)) (acc : Running) :
  (ph = Train → ∀ i l st, R st (optimise B i l st)) →
  keeps R (trainval_batches N B ph bs acc).
Proof.
  intros Hopt. revert acc. induction bs as [|b bs IH]; intros acc; cbn.
  - apply keeps_ret; apply _.
  - apply keeps_bind; [apply _ | by apply keeps_trainval_batch | intros acc'; apply IH].
Qed.

Lemma keeps_test_batches (bs : list (Batch Clip)) (acc : Running) :
  keeps R (test_batches N B bs acc).
Proof.
  revert acc. induction bs as [|b bs IH]; intros acc; cbn.
  - apply keeps_ret; apply _.
  - apply keeps_bind; [apply _ | | intros acc'; apply IH].
    unfold test_batch. keeps_tac.
Qed.

Lemma keeps_epoch_metrics (size : Z) (acc : Running) :
  keeps R (epoch_metrics N B size acc).
Proof. unfold epoch_metrics. keeps_tac. Qed.

Lemma keeps_run_phase (cfg : Config) (ph : Phase) (e : Z) :
  (ph = Train → ∀ st, R st (scheduler_step B st)) →
  (∀ b st, R st (set_training b st)) →
  (ph = Train → ∀ i l st, R st (optimise B i l st)) →
  (∀ rows st, R st (write_file (csv_path (predictions_dir cfg) (phase_name ph) e)
                               (CsvFile rows) st)) →
  (∀ tag v st, is_test_tag tag = false → R st (push_scalar tag v e st)) →
  keeps R (run_phase N B cfg ph e).
Proof.
  intros Hsched Hmode Hopt Hcsv Hlog. unfold run_phase.
  apply keeps_bind; [apply _ | | intros _].
  { destruct ph; keeps_tac; auto. }
  apply keeps_bind; [apply _ | by apply keeps_trainval_batches | intros acc].
  apply keeps_bind; [apply _ | apply keeps_epoch_metrics | intros m].
  apply keeps_bind; [apply _ | | intros _].
  { unfold save_to_csv. apply keeps_modify. intros st. apply Hcsv. }
  destruct ph; unfold log_train, log_val, add_scalar; keeps_tac; by apply Hlog.
Qed.

Lemma keeps_test_pass (cfg : Config) (e : Z) :
  (∀ b st, R st (set_training b st)) →
  (∀ rows st, R st (write_file (csv_path (predictions_dir cfg) "test" e)
                               (CsvFile rows) st)) →
  (∀ tag v st, R st (push_scalar tag v e st)) →
  keeps R (test_pass N B cfg e).
Proof.
  intros Hmode Hcsv Hlog. unfold test_pass.
  apply keeps_bind; [apply _ | by apply keeps_modify | intros _].
  apply keeps_bind; [apply _ | by apply keeps_test_batches | intros acc].
  apply keeps_bind; [apply _ | apply keeps_epoch_metrics | intros m].
  apply keeps_bind; [apply _ | | intros _].
  { unfold save_to_csv. apply keeps_modify. intros st. apply Hcsv. }
  unfold log_test, add_scalar; keeps_tac; by apply Hlog.
Qed.

Lemma keeps_maybe_checkpoint (cfg : Config) (e : Z) :
  (∀ p o st, R st (write_file (ckpt_path cfg e)
                     (CkptFile {| ck_epoch := e + 1; ck_state_dict := p;
                                  ck_opt_dict := o |}) st)) →
  keeps R (maybe_checkpoint cfg e).
Proof.
  intros Hw. unfold maybe_checkpoint, save_checkpoint. keeps_tac. apply Hw.
Qed.

Lemma keeps_load_checkpoint (cfg : Config) :
  (∀ p st, R st (set_params p st)) → (∀ o st, R st (set_opt o st)) →
  keeps R (load_checkpoint B cfg).
Proof.
  intros Hp Ho. unfold load_checkpoint.
  apply keeps_bind; [apply _ | apply keeps_get; apply _ | intros st0].
  destruct (st_fs st0 !! resume_path cfg) as [[ck|rows]|]; keeps_tac; auto.
Qed.

Lemma keeps_epoch_loop (cfg : Config) (es : list Z) :
  (∀ e, keeps R (run_epoch N B cfg e)) → keeps R (epoch_loop N B cfg es).
Proof.
  intros He. induction es as [|e es IH]; cbn.
  - apply keeps_ret; apply _.
  - apply keeps_bind; [apply _ | apply He | intros _; apply IH].
Qed.

End Frames.

(** ** Validation and test passes (C9, C10) *)

Lemma test_batch_as_validation (b : Batch Clip) (acc : Running) (st : St) :
  test_batch N B b acc st = trainval_batch N B Val b acc st.
Proof.
  unfold test_batch, trainval_batch, bind, get. cbn.
  destruct (lift_opt EmptyRowError _ st) as [[preds|err] st1]; reflexivity.
Qed.

Lemma test_batches_as_validation (bs : list (Batch Clip)) (acc : Running) (st : St) :
  test_batches N B bs acc st = trainval_batches N B Val bs acc st.
Proof.
  revert acc st. induction bs as [|b bs IH]; intros acc st; [done|].
  cbn. unfold bind. rewrite test_batch_as_validation.
  destruct (trainval_batch N B Val b acc st) as [[acc'|err] st1]; [apply IH|done].
Qed.

(** C10: a validation phase and a test pass run no backward pass and no
    optimizer step, so the model parameters and the optimizer state after
    the phase equal those before it, whether the phase finishes or dies. *)
Theorem evaluation_leaves_trainable_state (cfg : Config) (e : Z) (st : St) :
  (st_params (run_phase N B cfg Val e st).2 = st_params st ∧
   st_opt (run_phase N B cfg Val e st).2 = st_opt st) ∧
  (st_params (test_pass N B cfg e st).2 = st_params st ∧
   st_opt (test_pass N B cfg e st).2 = st_opt st) ∧
  (∀ bs acc,
     st_params (trainval_batches N B Val bs acc st).2 = st_params st ∧
     st_opt (trainval_batches N B Val bs acc st).2 = st_opt st) ∧
  (∀ bs acc,
     st_params (test_batches N B bs acc st).2 = st_params st ∧
     st_opt (test_batches N B bs acc st).2 = st_opt st).
Proof.
  split; [|split; [|split]].
  - apply (keeps_run_phase same_trainable); done.
  - apply (keeps_test_pass same_trainable); done.
  - intros bs acc. apply (keeps_trainval_batches same_trainable); done.
  - intros bs acc. apply (keeps_test_batches same_trainable).
Qed.

Lemma write_csv_keeps_checkpoints (cfg : Config) (c : ascii) (name : string)
    (e : Z) (rows : list (list (Cell F))) (st : St) (k : Z) :
  c ≠ "/"%char →
  st_fs (write_file (csv_path (predictions_dir cfg) (String c name) e)
                    (CsvFile rows) st) !! ckpt_path cfg k
  = st_fs st !! ckpt_path cfg k.
Proof. intros Hc. cbn. apply lookup_insert_ne. by apply ckpt_csv_ne. Qed.

(** C9: the test pass runs the batches exactly as the validation phase
    does (same accumulation, no gradient step), takes no scheduler step,
    leaves the learning rate alone and writes no checkpoint file. *)
Theorem test_pass_frame (cfg : Config) (e : Z) (st : St) :
  (∀ bs acc s, test_batches N B bs acc s = trainval_batches N B Val bs acc s) ∧
  st_last_epoch (test_pass N B cfg e st).2 = st_last_epoch st ∧
  st_opt (test_pass N B cfg e st).2 = st_opt st ∧
  (∀ k, st_fs (test_pass N B cfg e st).2 !! ckpt_path cfg k
        = st_fs st !! ckpt_path cfg k).
Proof.
  split; [apply test_batches_as_validation|].
  apply (keeps_test_pass (same_schedule_and_checkpoints cfg)).
  - done.
  - intros rows s. repeat split. intros k. by apply write_csv_keeps_checkpoints.
  - done.
Qed.

(** ** Test evaluation disabled (C8) *)

Lemma same_outputs_no_test (cfg : Config) (st st' : St) :
  same_outputs st st' → no_test_output cfg st st'.
Proof.
  intros [Hfs Hsc]. split; [by rewrite Hfs|]. exists []. by rewrite app_nil_r.
Qed.

Lemma push_scalar_no_test (cfg : Config) (tag : string) (v : F) (e : Z) (st : St) :
  is_test_tag tag = false → no_test_output cfg st (push_scalar tag v e st).
Proof.
  intros Htag. split; [done|]. exists [(tag, v, e)]. split; [done|].
  by apply Forall_singleton.
Qed.

Lemma run_phase_no_test (cfg : Config) (ph : Phase) (e : Z) :
  keeps (no_test_output cfg) (run_phase N B cfg ph e).
Proof.
  apply keeps_run_phase; try (intros; by apply same_outputs_no_test).
  - apply _.
  - intros rows st. split; [|exists []; by rewrite app_nil_r].
    intros e'. cbn. apply lookup_insert_ne. apply phase_csv_ne_test.
  - intros tag v st Htag. by apply push_scalar_no_test.
Qed.

Lemma maybe_checkpoint_no_test (cfg : Config) (e : Z) :
  keeps (no_test_output cfg) (maybe_checkpoint cfg e : Comp unit).
Proof.
  apply keeps_maybe_checkpoint; [apply _|].
  intros p o st. split; [|exists []; by rewrite app_nil_r].
  intros e'. cbn. apply lookup_insert_ne. intros H. symmetry in H.
  by apply test_csv_ne_ckpt in H.
Qed.

(** C8: with test evaluation disabled, a run -- of any length, with any
    test interval, finished or not -- writes no test prediction dump and
    appends no scalar under the test namespace. *)
Theorem disabled_test_produces_nothing (cfg : Config) (st : St) :
  useTest cfg = false →
  (∀ e, st_fs (train_model N B cfg st).2 !! csv_path (predictions_dir cfg) "test" e
        = st_fs st !! csv_path (predictions_dir cfg) "test" e) ∧
  ∃ new, st_scalars (train_model N B cfg st).2 = st_scalars st ++ new ∧
         Forall (λ s : string * F * Z, is_test_tag s.1.1 = false) new.
Proof.
  intros Hoff.
  assert (keeps (no_test_output cfg) (train_model N B cfg)) as H; [|apply H].
  unfold train_model. apply keeps_bind; [apply _ | | intros _].
  { destruct (decide (resume_epoch cfg = 0)); [apply keeps_ret; apply _|].
    apply keeps_load_checkpoint; [apply _|..]; intros; by apply same_outputs_no_test. }
  apply keeps_epoch_loop; [apply _|]. intros e. unfold run_epoch.
  apply keeps_bind; [apply _ | apply run_phase_no_test | intros _].
  apply keeps_bind; [apply _ | apply run_phase_no_test | intros _].
  apply keeps_bind; [apply _ | apply maybe_checkpoint_no_test | intros _].
  unfold maybe_test. rewrite Hoff. apply keeps_ret; apply _.
Qed.

(** ** Checkpoints (C5) *)

Lemma checkpoint_due_iff (s e : Z) :
  0 < s → e `mod` s = s - 1 ↔ (s | e + 1).
Proof.
  intros Hs. split.
  - intros Hm. exists (e `div` s + 1).
    pose proof (Z.div_mod e s ltac:(lia)) as Hdm. lia.
  - intros [c Hc]. symmetry. apply (Z.mod_unique_pos e s (c - 1)); lia.
Qed.

Lemma maybe_checkpoint_due (cfg : Config) (e : Z) (st : St) :
  0 < save_epoch cfg → (save_epoch cfg | e + 1) →
  maybe_checkpoint cfg e st =
  (Done tt, write_file (ckpt_path cfg e)
              (CkptFile {| ck_epoch := e + 1; ck_state_dict := st_params st;
                           ck_opt_dict := st_opt st |}) st).
Proof.
  intros Hs Hdue. unfold maybe_checkpoint.
  destruct (decide (save_epoch cfg = 0)); [lia|].
  destruct (decide _) as [|Hn]; [done|]. by apply checkpoint_due_iff in Hdue.
Qed.

Lemma maybe_checkpoint_not_due (cfg : Config) (e : Z) (st : St) :
  0 < save_epoch cfg → ¬ (save_epoch cfg | e + 1) →
  maybe_checkpoint cfg e st = (Done tt, st).
Proof.
  intros Hs Hdue. unfold maybe_checkpoint.
  destruct (decide (save_epoch cfg = 0)); [lia|].
  destruct (decide _) as [Hy|]; [|done]. by apply checkpoint_due_iff in Hy.
Qed.

Lemma run_phase_keeps_checkpoints (cfg : Config) (ph : Phase) (e : Z) (P : Z → Prop) :
  keeps (same_checkpoints_on cfg P) (run_phase N B cfg ph e).
Proof.
  apply keeps_run_phase; try done; [apply _|].
  intros rows st k _. cbn. apply lookup_insert_ne, phase_csv_ne_ckpt.
Qed.

Lemma maybe_test_keeps_checkpoints (cfg : Config) (e : Z) (P : Z → Prop) :
  keeps (same_checkpoints_on cfg P) (maybe_test N B cfg e).
Proof.
  unfold maybe_test.
  destruct (useTest cfg); [|apply keeps_ret; apply _].
  destruct (decide _); [apply keeps_raise; apply _|].
  destruct (decide _); [|apply keeps_ret; apply _].
  apply keeps_test_pass; try done; [apply _|].
  intros rows st k _. cbn. apply lookup_insert_ne, test_csv_ne_ckpt.
Qed.

Lemma run_epoch_keeps_other_checkpoints (cfg : Config) (e : Z) :
  keeps (same_checkpoints_on cfg (λ k, k ≠ e)) (run_epoch N B cfg e).
Proof.
  unfold run_epoch.
  apply keeps_bind; [apply _ | apply run_phase_keeps_checkpoints | intros _].
  apply keeps_bind; [apply _ | apply run_phase_keeps_checkpoints | intros _].
  apply keeps_bind; [apply _ | | intros _; apply maybe_test_keeps_checkpoints].
  apply keeps_maybe_checkpoint; [apply _|].
  intros p o st k Hk. cbn. apply lookup_insert_ne. intros H.
  by apply ckpt_path_inj in H.
Qed.

Lemma keying_from_checkpoints (cfg : Config) (st st' : St) :
  same_checkpoints_on cfg (λ _, True) st st' → keying_preserved cfg st st'.
Proof. intros H Hk k ck. rewrite H by done. apply Hk. Qed.

Lemma train_model_keeps_keying (cfg : Config) :
  keeps (keying_preserved cfg) (train_model N B cfg).
Proof.
  unfold train_model. apply keeps_bind; [apply _ | | intros _].
  { destruct (decide (resume_epoch cfg = 0)); [apply keeps_ret; apply _|].
    apply keeps_load_checkpoint; [apply _|..]; intros ? st0 H; exact H. }
  apply keeps_epoch_loop; [apply _|]. intros e. unfold run_epoch.
  assert (∀ ph, keeps (keying_preserved cfg) (run_phase N B cfg ph e)) as Hph.
  { intros ph st. apply keying_from_checkpoints, run_phase_keeps_checkpoints. }
  apply keeps_bind; [apply _ | apply Hph | intros _].
  apply keeps_bind; [apply _ | apply Hph | intros _].
  apply keeps_bind; [apply _ | | intros _].
  - apply keeps_maybe_checkpoint; [apply _|].
    intros p o st Hk k ck'. cbn.
    destruct (decide (k = e)) as [->|Hne].
    + rewrite lookup_insert_eq. by intros [= <-].
    + rewrite lookup_insert_ne; [apply Hk|]. intros H. by apply ckpt_path_inj in H.
  - intros st. apply keying_from_checkpoints, maybe_test_keeps_checkpoints.
Qed.

Lemma run_epoch_after_phases (cfg : Config) (e : Z) (st st1 st2 : St) :
  run_phase N B cfg Train e st = (Done tt, st1) →
  run_phase N B cfg Val e st1 = (Done tt, st2) →
  run_epoch N B cfg e st = bind (maybe_checkpoint cfg e) (λ _, maybe_test N B cfg e) st2.
Proof.
  intros H1 H2. unfold run_epoch.
  rewrite (bind_run_done _ _ _ _ _ H1). by rewrite (bind_run_done _ _ _ _ _ H2).
Qed.

Lemma run_epoch_done (cfg : Config) (e : Z) (st st' : St) :
  run_epoch N B cfg e st = (Done tt, st') →
  ∃ st1 st2,
    run_phase N B cfg Train e st = (Done tt, st1) ∧
    run_phase N B cfg Val e st1 = (Done tt, st2).
Proof.
  unfold run_epoch. intros H.
  apply bind_done_inv in H as ([] & st1 & H1 & H).
  apply bind_done_inv in H as ([] & st2 & H2 & H).
  by exists st1, st2.
Qed.

Lemma run_epoch_checkpoint (cfg : Config) (e : Z) (st st' : St) :
  0 < save_epoch cfg →
  run_epoch N B cfg e st = (Done tt, st') →
  ((save_epoch cfg | e + 1) →
     ∃ ck, st_fs st' !! ckpt_path cfg e = Some (CkptFile ck) ∧ ck_epoch ck = e + 1) ∧
  (¬ (save_epoch cfg | e + 1) →
     st_fs st' !! ckpt_path cfg e = st_fs st !! ckpt_path cfg e).
Proof.
  intros Hs Hrun. pose proof (run_epoch_done _ _ _ _ Hrun) as (st1 & st2 & H1 & H2).
  rewrite (run_epoch_after_phases _ _ _ _ _ H1 H2) in Hrun. unfold bind in Hrun.
  pose proof (maybe_test_keeps_checkpoints cfg e (λ _, True)) as Htest.
  split; intros Hdue.
  - rewrite maybe_checkpoint_due in Hrun by done.
    specialize (Htest (write_file (ckpt_path cfg e)
                  (CkptFile {| ck_epoch := e + 1; ck_state_dict := st_params st2;
                               ck_opt_dict := st_opt st2 |}) st2) e I).
    rewrite Hrun in Htest. cbn in Htest. rewrite lookup_insert_eq in Htest.
    by eexists.
  - rewrite maybe_checkpoint_not_due in Hrun by done.
    specialize (Htest st2 e I). rewrite Hrun in Htest. cbn in Htest. rewrite Htest.
    pose proof (run_phase_keeps_checkpoints cfg Val e (λ _, True) st1 e I) as Hv.
    pose proof (run_phase_keeps_checkpoints cfg Train e (λ _, True) st e I) as Ht.
    rewrite H2 in Hv. rewrite H1 in Ht. cbn in Hv, Ht. by rewrite Hv, Ht.
Qed.

(** Checkpoint files after a finished sequence of distinct epochs. *)
Lemma epoch_loop_checkpoints (cfg : Config) (es : list Z) (st st' : St) (k : Z) :
  0 < save_epoch cfg → NoDup es →
  epoch_loop N B cfg es st = (Done tt, st') →
  (k ∈ es ∧ (save_epoch cfg | k + 1) →
     ∃ ck, st_fs st' !! ckpt_path cfg k = Some (CkptFile ck) ∧ ck_epoch ck = k + 1) ∧
  (¬ (k ∈ es ∧ (save_epoch cfg | k + 1)) →
     st_fs st' !! ckpt_path cfg k = st_fs st !! ckpt_path cfg k).
Proof.
  intros Hs Hnd. revert st. induction Hnd as [|e es Hnotin Hnd IH]; intros st Hrun.
  - cbn in Hrun. unfold ret in Hrun. simplify_eq.
    split; [intros [Hin _]; by apply elem_of_nil in Hin | done].
  - cbn [epoch_loop] in Hrun. apply bind_done_inv in Hrun as ([] & st1 & He & Hrest).
    destruct (IH _ Hrest) as [IHin IHout].
    destruct (decide (k = e)) as [->|Hne].
    + destruct (run_epoch_checkpoint _ _ _ _ Hs He) as [Hdue Hnot].
      rewrite IHout by (intros [Hin _]; done).
      split.
      * intros [_ Hdiv]. by apply Hdue.
      * intros Hn. apply Hnot. intros Hdiv. apply Hn. split; [left|done].
    + pose proof (run_epoch_keeps_other_checkpoints cfg e st k Hne) as Hother.
      rewrite He in Hother. cbn in Hother. split.
      * intros [Hin Hdiv]. apply IHin. split; [|done].
        apply elem_of_cons in Hin as [?|?]; done.
      * intros Hn. rewrite <- Hother. apply IHout. intros [Hin Hdiv].
        apply Hn. split; [by right|done].
Qed.

(** C5 (as amended): for a positive checkpoint interval, the end of epoch
    [e] writes a checkpoint exactly when [e + 1] is a multiple of the
    interval; the file is named by [e] (and the name determines [e]); it
    holds the parameters and optimizer state as they are after the
    validation phase, and the stored epoch field [e + 1]; no other
    checkpoint file is touched during the epoch; after a finished run the
    checkpoint files written are those of the epochs [k] of the run with
    [k + 1] a multiple of the interval, all others are as before; and a
    store in which every file named by [k] carries the field [k + 1] stays
    so over a whole run. *)
Theorem checkpoint_every_interval (cfg : Config) (e : Z) (st : St) :
  0 < save_epoch cfg →
  ((save_epoch cfg | e + 1) →
     maybe_checkpoint cfg e st =
     (Done tt, write_file (ckpt_path cfg e)
                 (CkptFile {| ck_epoch := e + 1; ck_state_dict := st_params st;
                              ck_opt_dict := st_opt st |}) st) ∧
     ∀ st1 st2,
       run_phase N B cfg Train e st = (Done tt, st1) →
       run_phase N B cfg Val e st1 = (Done tt, st2) →
       st_fs (run_epoch N B cfg e st).2 !! ckpt_path cfg e =
       Some (CkptFile {| ck_epoch := e + 1; ck_state_dict := st_params st2;
                         ck_opt_dict := st_opt st2 |})) ∧
  (¬ (save_epoch cfg | e + 1) →
     maybe_checkpoint cfg e st = (Done tt, st) ∧
     st_fs (run_epoch N B cfg e st).2 !! ckpt_path cfg e = st_fs st !! ckpt_path cfg e) ∧
  (∀ k, k ≠ e →
     st_fs (run_epoch N B cfg e st).2 !! ckpt_path cfg k = st_fs st !! ckpt_path cfg k) ∧
  (∀ k, ckpt_path cfg k = ckpt_path cfg e → k = e) ∧
  (∀ st' k,
     train_model N B cfg st = (Done tt, st') →
     (resume_epoch cfg ≤ k < num_epochs cfg ∧ (save_epoch cfg | k + 1) →
        ∃ ck, st_fs st' !! ckpt_path cfg k = Some (CkptFile ck) ∧ ck_epoch ck = k + 1) ∧
     (¬ (resume_epoch cfg ≤ k < num_epochs cfg ∧ (save_epoch cfg | k + 1)) →
        st_fs st' !! ckpt_path cfg k = st_fs st !! ckpt_path cfg k)) ∧
  (keyed_by_epoch cfg (st_fs st) →
     keyed_by_epoch cfg (st_fs (train_model N B cfg st).2)).
Proof.
  intros Hs. split; [|split; [|split; [|split; [|split]]]].
  - intros Hdue. split; [by apply maybe_checkpoint_due|].
    intros st1 st2 H1 H2. rewrite (run_epoch_after_phases _ _ _ _ _ H1 H2).
    unfold bind. rewrite maybe_checkpoint_due by done.
    rewrite (maybe_test_keeps_checkpoints cfg e (λ _, True)) by done.
    cbn. apply lookup_insert_eq.
  - intros Hnot. split; [by apply maybe_checkpoint_not_due|].
    assert (keeps (same_checkpoints_on cfg (λ _, True)) (run_epoch N B cfg e)) as Hk.
    { unfold run_epoch.
      apply keeps_bind; [apply _ | apply run_phase_keeps_checkpoints | intros _].
      apply keeps_bind; [apply _ | apply run_phase_keeps_checkpoints | intros _].
      apply keeps_bind; [apply _ | | intros _; apply maybe_test_keeps_checkpoints].
      intros s. by rewrite maybe_checkpoint_not_due. }
    by apply Hk.
  - intros k Hk. by apply run_epoch_keeps_other_checkpoints.
  - intros k. apply ckpt_path_inj.
  - intros st' k Hrun. unfold train_model in Hrun.
    apply bind_done_inv in Hrun as ([] & st0 & Hload & Hloop).
    assert (st_fs st0 = st_fs st) as Hfs.
    { assert (keeps same_outputs
                (if decide (resume_epoch cfg = 0) then ret tt else load_checkpoint B cfg))
        as Hk.
      { destruct (decide _); [apply keeps_ret; apply _|].
        apply keeps_load_checkpoint; [apply _|..]; done. }
      specialize (Hk st). rewrite Hload in Hk. apply Hk. }
    pose proof (epoch_loop_checkpoints cfg (epoch_range cfg) st0 st' k Hs
                  (NoDup_seqZ _ _) Hloop) as [Hin Hout].
    rewrite Hfs in Hout.
    assert (k ∈ epoch_range cfg ↔ resume_epoch cfg ≤ k < num_epochs cfg) as Hmem.
    { unfold epoch_range. rewrite elem_of_seqZ. lia. }
    split.
    + intros [Hk Hdiv]. apply Hin. by rewrite Hmem.
    + intros Hn. apply Hout. rewrite Hmem. exact Hn.
  - exact (train_model_keeps_keying cfg st).
Qed.

(** ** Resume (C1, C2) *)

Lemma train_model_resumed (cfg : Config) (st : St) (ck : Checkpoint Params OptState) :
  resume_epoch cfg ≠ 0 →
  st_fs st !! resume_path cfg = Some (CkptFile ck) →
  load_compatible B (st_params st) (ck_state_dict ck) = true →
  opt_compatible B (st_opt st) (ck_opt_dict ck) = true →
  train_model N B cfg st =
  epoch_loop N B cfg (epoch_range cfg)
    (set_opt (ck_opt_dict ck) (set_params (ck_state_dict ck) st)).
Proof.
  intros Hr Hfile Hm Ho. unfold train_model, load_checkpoint, bind, get.
  destruct (decide (resume_epoch cfg = 0)); [done|].
  rewrite Hfile, Hm. cbn. by rewrite Ho.
Qed.

(** C1 (as amended): when the resume epoch is non-zero, the file opened is
    the checkpoint whose name embeds [resume_epoch - 1]; parameters and
    optimizer state are taken from it and only then does the epoch loop
    start; if the file is absent, is no checkpoint, or is rejected by the
    model or the optimizer, the run dies with nothing written, nothing
    logged and no scheduler step taken. *)
Theorem resume_loads_previous_epoch_file (cfg : Config) (st : St) :
  resume_epoch cfg ≠ 0 →
  resume_path cfg = ckpt_path cfg (resume_epoch cfg - 1) ∧
  (∀ ck,
     st_fs st !! resume_path cfg = Some (CkptFile ck) →
     load_compatible B (st_params st) (ck_state_dict ck) = true →
     opt_compatible B (st_opt st) (ck_opt_dict ck) = true →
     train_model N B cfg st =
     epoch_loop N B cfg (epoch_range cfg)
       (set_opt (ck_opt_dict ck) (set_params (ck_state_dict ck) st))) ∧
  ((st_fs st !! resume_path cfg = None ∨
    (∃ rows, st_fs st !! resume_path cfg = Some (CsvFile rows)) ∨
    (∃ ck, st_fs st !! resume_path cfg = Some (CkptFile ck) ∧
           (load_compatible B (st_params st) (ck_state_dict ck) = false ∨
            opt_compatible B (st_opt st) (ck_opt_dict ck) = false))) →
   ∃ err, (train_model N B cfg st).1 = Fatal err ∧
          st_fs (train_model N B cfg st).2 = st_fs st ∧
          st_scalars (train_model N B cfg st).2 = st_scalars st ∧
          st_last_epoch (train_model N B cfg st).2 = st_last_epoch st).
Proof.
  intros Hr. split; [done|]. split; [intros ck; by apply train_model_resumed|].
  unfold train_model, load_checkpoint, bind, get.
  destruct (decide (resume_epoch cfg = 0)); [done|]. cbn.
  intros [Hnone|[[rows Hcsv]|(ck & Hck & Hbad)]].
  - rewrite Hnone. cbn. by eexists.
  - rewrite Hcsv. cbn. by eexists.
  - rewrite Hck.
    destruct (load_compatible B (st_params st) (ck_state_dict ck)) eqn:Hm; cbn;
      [|by eexists].
    destruct Hbad as [?|Ho]; [done|]. rewrite Ho. cbn. by eexists.
Qed.

(** C2 (as amended): the checkpoint written at the end of epoch [k] stores
    the epoch field [k + 1]; a run resumes from that file exactly when its
    resume epoch is [k + 1], the stored value; it restores the saved
    parameters and optimizer state and its epoch loop runs over
    [k + 1, ..., total - 1]. *)
Theorem resume_continues_at_next_epoch (cfg : Config) (k r : Z) (st : St) :
  0 < save_epoch cfg → (save_epoch cfg | k + 1) →
  r ≠ 0 → resume_path (with_resume r cfg) = ckpt_path cfg k →
  r = k + 1 ∧
  epoch_range (with_resume r cfg) = seqZ (k + 1) (num_epochs cfg - (k + 1)) ∧
  (∀ x, x ∈ epoch_range (with_resume r cfg) ↔ k + 1 ≤ x < num_epochs cfg) ∧
  (k + 1 < num_epochs cfg → head (epoch_range (with_resume r cfg)) = Some (k + 1)) ∧
  st_fs (maybe_checkpoint cfg k st).2 !! resume_path (with_resume r cfg) =
    Some (CkptFile {| ck_epoch := r; ck_state_dict := st_params st;
                      ck_opt_dict := st_opt st |}) ∧
  ∀ st0 : St,
    st_fs st0 = st_fs (maybe_checkpoint cfg k st).2 →
    load_compatible B (st_params st0) (st_params st) = true →
    opt_compatible B (st_opt st0) (st_opt st) = true →
    train_model N B (with_resume r cfg) st0 =
    epoch_loop N B (with_resume r cfg) (seqZ (k + 1) (num_epochs cfg - (k + 1)))
      (set_opt (st_opt st) (set_params (st_params st) st0)).
Proof.
  intros Hs Hdue Hr Hpath.
  assert (r = k + 1) as ->.
  { change (ckpt_path cfg (r - 1) = ckpt_path cfg k) in Hpath.
    apply ckpt_path_inj in Hpath. lia. }
  split; [done|]. split; [done|].
  split. { intros x. unfold epoch_range. rewrite elem_of_seqZ. cbn. lia. }
  split. { intros Hlt. unfold epoch_range. cbn. by rewrite seqZ_cons by lia. }
  assert (st_fs (maybe_checkpoint cfg k st).2 !! resume_path (with_resume (k + 1) cfg) =
          Some (CkptFile {| ck_epoch := k + 1; ck_state_dict := st_params st;
                            ck_opt_dict := st_opt st |})) as Hfile.
  { rewrite Hpath, maybe_checkpoint_due by done. cbn. apply lookup_insert_eq. }
  split; [done|].
  intros st0 Hfs Hm Ho.
  rewrite (train_model_resumed (with_resume (k + 1) cfg) st0
             {| ck_epoch := k + 1; ck_state_dict := st_params st;
                ck_opt_dict := st_opt st |}); try done.
  by rewrite Hfs.
Qed.

(** ** What a finished phase leaves behind *)

Tactic Notation "inv_bind" hyp(H) "as" simple_intropattern(a)
    simple_intropattern(s) ident(H1) :=
  apply bind_done_inv in H as (a & s & H1 & H).

Lemma epoch_metrics_done (size : Z) (acc : Running) (st st' : St) (m : Metrics) :
  epoch_metrics N B size acc st = (Done m, st') →
  st' = st ∧ size ≠ 0 ∧
  epoch_loss m = fdiv N (running_loss acc) (of_int N size) ∧
  epoch_acc m = fdiv N (of_int N (running_corrects acc)) (of_int N size) ∧
  roc_auc_score B (running_labels acc) (running_probs acc) = Some (epoch_auc m).
Proof.
  unfold epoch_metrics. destruct (decide (size = 0)); [done|]. intros H.
  inv_bind H as auc s1 Hauc. apply lift_opt_done_inv in Hauc as [Hauc ->].
  inv_bind H as sens s2 Hsens. apply lift_opt_done_inv in Hsens as [Hsens ->].
  inv_bind H as spec s3 Hspec. apply lift_opt_done_inv in Hspec as [Hspec ->].
  unfold ret in H. by simplify_eq.
Qed.

Lemma trainval_batch_done (ph : Phase) (b : Batch Clip) (acc acc' : Running) (st st' : St) :
  trainval_batch N B ph b acc st = (Done acc', st') →
  st' = after_batch B ph b st ∧
  ∃ preds col,
    torch_max_indices N (batch_probs B st b) = Some preds ∧
    column1 (batch_probs B st b) = Some col ∧
    acc' = mkRunning
             (fadd N (running_loss acc)
                   (fmul N (batch_loss B st b) (of_int N (Z.of_nat (length b)))))
             (running_corrects acc + count_equal preds b.*2)
             (running_probs acc ++ col) (running_labels acc ++ b.*2).
Proof.
  unfold trainval_batch. intros H.
  inv_bind H as s0 s Hget. unfold get in Hget. injection Hget as <- <-.
  assert (match ph with
          | Train => forward B (st_training st) (st_params st) b.*1
          | Val => forward B (st_training st) (st_params st) b.*1
          end = forward B (st_training st) (st_params st) b.*1) as E by (by destruct ph).
  cbv zeta in H. rewrite !E in H. clear E.
  inv_bind H as preds s1 Hpreds. apply lift_opt_done_inv in Hpreds as [Hpreds ->].
  inv_bind H as u s2 Hstep.
  assert (s2 = after_batch B ph b st) as ->.
  { destruct ph; unfold modify, ret in Hstep; by simplify_eq. }
  inv_bind H as col s3 Hcol. apply lift_opt_done_inv in Hcol as [Hcol ->].
  unfold ret in H. simplify_eq. split; [done|].
  exists preds, col. by rewrite length_fmap.
Qed.

Lemma count_equal_hits (rows : list (list F)) (preds labels : list Z) :
  torch_max_indices N rows = Some preds →
  count_equal preds labels = argmax_hits N rows labels.
Proof.
  unfold torch_max_indices. rewrite mapM_Some. intros Hf. revert labels.
  induction Hf as [|row p rows preds Hrow _ IH]; intros [|l labels]; try done.
  cbn. rewrite IH, Hrow.
  destruct (decide (p = l)), (decide (Some p = Some l)); congruence.
Qed.

Lemma trainval_batches_done (ph : Phase) (bs : list (Batch Clip))
    (acc acc' : Running) (st st' : St) :
  trainval_batches N B ph bs acc st = (Done acc', st') →
  st' = after_batches B ph bs st ∧
  running_loss acc' = weighted_sum N (running_loss acc) (observed_losses B ph bs st) ∧
  running_corrects acc' = running_corrects acc + observed_hits N B ph bs st ∧
  running_labels acc' = running_labels acc ++ (concat bs).*2 ∧
  ∃ col, running_probs acc' = running_probs acc ++ col ∧
         Forall2 (λ (row : list F) p, row !! 1%nat = Some p) (observed_probs B ph bs st) col.
Proof.
  revert acc st. induction bs as [|b bs IH]; intros acc st H.
  - cbn in H. unfold ret in H. simplify_eq. cbn.
    rewrite Z.add_0_r, !app_nil_r. repeat split; try done.
    exists []. by rewrite app_nil_r.
  - cbn [trainval_batches] in H. inv_bind H as acc1 s1 Hb.
    apply trainval_batch_done in Hb as (-> & preds & col & Hpreds & Hcol & ->).
    apply IH in H as (-> & Hloss & Hhits & Hlab & col' & Hprobs & Hrows).
    cbn in Hloss, Hhits, Hlab, Hprobs. cbn [observed_losses observed_hits observed_probs].
    repeat split.
    + done.
    + rewrite Hhits, (count_equal_hits _ _ _ Hpreds). lia.
    + rewrite Hlab. cbn [concat]. by rewrite fmap_app, app_assoc.
    + exists (col ++ col'). rewrite Hprobs, app_assoc. split; [done|].
      apply Forall2_app; [|done]. by apply mapM_Some.
Qed.

Lemma trainval_batches_outputs (ph : Phase) (bs : list (Batch Clip)) (acc : Running) (st : St) :
  st_fs (trainval_batches N B ph bs acc st).2 = st_fs st ∧
  st_scalars (trainval_batches N B ph bs acc st).2 = st_scalars st.
Proof. by apply (keeps_trainval_batches same_outputs). Qed.

Lemma enter_phase_run (ph : Phase) (st : St) :
  (match ph with
   | Train => bind (modify (scheduler_step B)) (λ _, modify (set_training true))
   | Val => modify (set_training false)
   end) st = (Done tt, enter_phase B ph st).
Proof. by destruct ph. Qed.

Lemma log_phase_run (ph : Phase) (m : Metrics) (e : Z) (st : St) :
  (match ph with Train => log_train m e | Val => log_val m e end) st =
  (Done tt, mkState (st_params st) (st_opt st) (st_last_epoch st) (st_training st)
              (st_fs st) (st_scalars st ++ phase_scalars (phase_name ph) m e)).
Proof.
  destruct ph; unfold log_train, log_val, add_scalar, bind, modify, push_scalar; cbn;
    by rewrite <- !app_assoc.
Qed.

Lemma log_test_run (m : Metrics) (e : Z) (st : St) :
  log_test m e st =
  (Done tt, mkState (st_params st) (st_opt st) (st_last_epoch st) (st_training st)
              (st_fs st) (st_scalars st ++ phase_scalars "test" m e)).
Proof.
  unfold log_test, add_scalar, bind, modify, push_scalar; cbn. by rewrite <- !app_assoc.
Qed.

(** A phase that finishes: its batches and metrics finished, one dump was
    written and five scalars were appended. *)
Lemma run_phase_done (cfg : Config) (ph : Phase) (e : Z) (st st' : St) :
  run_phase N B cfg ph e st = (Done tt, st') →
  ∃ acc m st2,
    trainval_batches N B ph (loader B ph e) (running0 N) (enter_phase B ph st)
      = (Done acc, st2) ∧
    epoch_metrics N B (dataset_len B ph) acc st2 = (Done m, st2) ∧
    st_fs st' = <[csv_path (predictions_dir cfg) (phase_name ph) e :=
                   dump_of (running_labels acc) (running_probs acc)]> (st_fs st) ∧
    st_scalars st' = st_scalars st ++ phase_scalars (phase_name ph) m e.
Proof.
  unfold run_phase. intros H.
  inv_bind H as u s1 Henter. rewrite enter_phase_run in Henter. simplify_eq.
  inv_bind H as acc s2 Hloop.
  inv_bind H as m s3 Hm. pose proof Hm as Hm'. apply epoch_metrics_done in Hm' as (-> & _).
  inv_bind H as u' s4 Hcsv. unfold save_to_csv, modify in Hcsv. simplify_eq.
  rewrite log_phase_run in H. simplify_eq. cbn.
  pose proof (trainval_batches_outputs ph (loader B ph e) (running0 N) (enter_phase B ph st))
    as [Hfs Hsc].
  rewrite Hloop in Hfs, Hsc. cbn in Hfs, Hsc.
  exists acc, m, s2. rewrite Hfs, Hsc. repeat split; try done.
  all: by destruct ph.
Qed.

Lemma test_pass_done (cfg : Config) (e : Z) (st st' : St) :
  test_pass N B cfg e st = (Done tt, st') →
  ∃ acc m st2,
    trainval_batches N B Val (test_loader B e) (running0 N) (set_training false st)
      = (Done acc, st2) ∧
    epoch_metrics N B (test_len B) acc st2 = (Done m, st2) ∧
    st_fs st' = <[csv_path (predictions_dir cfg) "test" e :=
                   dump_of (running_labels acc) (running_probs acc)]> (st_fs st) ∧
    st_scalars st' = st_scalars st ++ phase_scalars "test" m e.
Proof.
  unfold test_pass. intros H.
  inv_bind H as u s1 Henter. unfold modify in Henter. simplify_eq.
  inv_bind H as acc s2 Hloop. rewrite test_batches_as_validation in Hloop.
  inv_bind H as m s3 Hm. pose proof Hm as Hm'. apply epoch_metrics_done in Hm' as (-> & _).
  inv_bind H as u' s4 Hcsv. unfold save_to_csv, modify in Hcsv. simplify_eq.
  rewrite log_test_run in H. simplify_eq. cbn.
  pose proof (trainval_batches_outputs Val (test_loader B e) (running0 N)
                (set_training false st)) as [Hfs Hsc].
  rewrite Hloop in Hfs, Hsc. cbn in Hfs, Hsc.
  exists acc, m, s2. by rewrite Hfs, Hsc.
Qed.

(** ** Logged loss (C6) *)

(** C6: whenever a phase (train, validation or test) finishes, exactly
    the five scalars of that (epoch, phase) are appended, once, after the
    batch loop; the loss among them is the sum over the split's batches, in
    encounter order and starting from 0.0, of batch loss times batch size,
    divided by the split's sample count [len(dataset)]. *)
Theorem logged_loss_is_weighted_mean (cfg : Config) (e : Z) (st : St) :
  (∀ ph st',
     run_phase N B cfg ph e st = (Done tt, st') →
     ∃ m, st_scalars st' = st_scalars st ++ phase_scalars (phase_name ph) m e ∧
          epoch_loss m =
          fdiv N (weighted_sum N (fzero N)
                    (observed_losses B ph (loader B ph e) (enter_phase B ph st)))
                 (of_int N (dataset_len B ph))) ∧
  (∀ st',
     test_pass N B cfg e st = (Done tt, st') →
     ∃ m, st_scalars st' = st_scalars st ++ phase_scalars "test" m e ∧
          epoch_loss m =
          fdiv N (weighted_sum N (fzero N)
                    (observed_losses B Val (test_loader B e) (set_training false st)))
                 (of_int N (test_len B))).
Proof.
  split.
  - intros ph st' H.
    apply run_phase_done in H as (acc & m & st2 & Hloop & Hm & _ & Hsc).
    exists m. split; [done|].
    apply epoch_metrics_done in Hm as (_ & _ & -> & _).
    by apply trainval_batches_done in Hloop as (_ & -> & _).
  - intros st' H.
    apply test_pass_done in H as (acc & m & st2 & Hloop & Hm & _ & Hsc).
    exists m. split; [done|].
    apply epoch_metrics_done in Hm as (_ & _ & -> & _).
    by apply trainval_batches_done in Hloop as (_ & -> & _).
Qed.

(** ** Prediction dumps (C7) *)

Section Shapes.
(** The network answers with one row per input clip. *)
Hypothesis forward_rows : ∀ t p xs, length (forward B t p xs) = length xs.

Lemma batch_probs_length (st : St) (b : Batch Clip) :
  length (batch_probs B st b) = length b.
Proof. unfold batch_probs. by rewrite length_map, forward_rows, length_fmap. Qed.

Lemma observed_probs_length (ph : Phase) (bs : list (Batch Clip)) (st : St) :
  length (observed_probs B ph bs st) = length (concat bs).
Proof.
  revert st. induction bs as [|b bs IH]; intros st; [done|].
  cbn [observed_probs concat]. by rewrite !length_app, IH, batch_probs_length.
Qed.

Lemma finished_batches_dump (ph : Phase) (bs : list (Batch Clip)) (st st2 : St)
    (acc : Running) :
  trainval_batches N B ph bs (running0 N) st = (Done acc, st2) →
  running_labels acc = (concat bs).*2 ∧
  Forall2 (λ (row : list F) p, row !! 1%nat = Some p)
          (observed_probs B ph bs st) (running_probs acc) ∧
  length (running_probs acc) = length (concat bs).
Proof.
  intros H. apply trainval_batches_done in H as (_ & _ & _ & Hlab & col & Hcol & Hrows).
  cbn in Hlab, Hcol. subst col. repeat split; try done.
  by rewrite <- (Forall2_length _ _ _ Hrows), observed_probs_length.
Qed.

(** C7: a finished phase leaves a dump that starts with the header row
    TrueLabel, Probability and continues with one row per sample the loader
    yielded in that epoch, in the order yielded: the sample's integer label
    and entry 1 of the probability row the model gave for it. *)
Theorem dump_has_one_row_per_sample (cfg : Config) (e : Z) (st : St) :
  (∀ ph st',
     run_phase N B cfg ph e st = (Done tt, st') →
     ∃ probs,
       st_fs st' !! csv_path (predictions_dir cfg) (phase_name ph) e =
         Some (CsvFile ([CStr "TrueLabel"; CStr "Probability"]
                        :: map (λ lp : Z * F, [CInt lp.1; CFloat lp.2])
                               (zip (concat (loader B ph e)).*2 probs))) ∧
       Forall2 (λ (row : list F) p, row !! 1%nat = Some p)
         (observed_probs B ph (loader B ph e) (enter_phase B ph st)) probs ∧
       length probs = length (concat (loader B ph e)) ∧
       length (zip (concat (loader B ph e)).*2 probs) = length (concat (loader B ph e)) ∧
       (dataset_len B ph = Z.of_nat (length (concat (loader B ph e))) →
        Z.of_nat (length (zip (concat (loader B ph e)).*2 probs)) = dataset_len B ph)) ∧
  (∀ st',
     test_pass N B cfg e st = (Done tt, st') →
     ∃ probs,
       st_fs st' !! csv_path (predictions_dir cfg) "test" e =
         Some (CsvFile ([CStr "TrueLabel"; CStr "Probability"]
                        :: map (λ lp : Z * F, [CInt lp.1; CFloat lp.2])
                               (zip (concat (test_loader B e)).*2 probs))) ∧
       Forall2 (λ (row : list F) p, row !! 1%nat = Some p)
         (observed_probs B Val (test_loader B e) (set_training false st)) probs ∧
       length probs = length (concat (test_loader B e)) ∧
       length (zip (concat (test_loader B e)).*2 probs) = length (concat (test_loader B e)) ∧
       (test_len B = Z.of_nat (length (concat (test_loader B e))) →
        Z.of_nat (length (zip (concat (test_loader B e)).*2 probs)) = test_len B)).
Proof.
  split.
  - intros ph st' H.
    apply run_phase_done in H as (acc & m & st2 & Hloop & _ & Hfs & _).
    apply finished_batches_dump in Hloop as (Hlab & Hrows & Hlen).
    exists (running_probs acc). rewrite Hfs, lookup_insert_eq, Hlab.
    assert (length (zip (concat (loader B ph e)).*2 (running_probs acc))
            = length (concat (loader B ph e))) as Hz
      by (rewrite length_zip_with, length_fmap; lia).
    repeat split; try done. intros ->. by rewrite Hz.
  - intros st' H.
    apply test_pass_done in H as (acc & m & st2 & Hloop & _ & Hfs & _).
    apply finished_batches_dump in Hloop as (Hlab & Hrows & Hlen).
    exists (running_probs acc). rewrite Hfs, lookup_insert_eq, Hlab.
    assert (length (zip (concat (test_loader B e)).*2 (running_probs acc))
            = length (concat (test_loader B e))) as Hz
      by (rewrite length_zip_with, length_fmap; lia).
    repeat split; try done. intros ->. by rewrite Hz.
Qed.

(** ** Accuracy from the dump (C4) *)

Lemma count_equal_app (p1 p2 l1 l2 : list Z) :
  length p1 = length l1 →
  count_equal (p1 ++ p2) (l1 ++ l2) = count_equal p1 l1 + count_equal p2 l2.
Proof.
  revert l1. induction p1 as [|p p1 IH]; intros [|l l1] Hlen; try done.
  cbn in *. rewrite IH by lia. lia.
Qed.

Lemma dump_hits_threshold (labels : list Z) (probs : list F) :
  dump_hits N (map csv_row (zip labels probs)) = count_equal (threshold N probs) labels.
Proof.
  revert probs. induction labels as [|l labels IH]; intros [|p probs]; try done.
  change (row_hit N (csv_row (l, p)) + dump_hits N (map csv_row (zip labels probs))
          = (if decide ((if fgt N p (fhalf N) then 1 else 0) = l) then 1 else 0)
            + count_equal (threshold N probs) labels).
  by rewrite IH.
Qed.

Lemma two_class_hits (rows : list (list F)) (col : list F) (labels : list Z) :
  Forall (λ r, two_class_row N r = true) rows →
  Forall2 (λ (row : list F) p, row !! 1%nat = Some p) rows col →
  argmax_hits N rows labels = count_equal (threshold N col) labels.
Proof.
  intros Htwo Hcol. revert labels Htwo.
  induction Hcol as [|row p rows col Hrow _ IH]; intros labels Htwo.
  - by destruct labels.
  - apply Forall_cons in Htwo as [Hr Htwo]. destruct labels as [|l labels]; [done|].
    cbn [argmax_hits threshold map count_equal]. rewrite (IH _ Htwo). f_equal.
    destruct row as [|p0 [|p1 [|? ?]]]; try done.
    cbn in Hrow, Hr. simplify_eq. apply bool_decide_eq_true in Hr.
    cbn. rewrite Hr.
    destruct (fgt N p (fhalf N)); destruct (decide (_ = _)), (decide (_ = _));
      congruence.
Qed.

Lemma two_class_observed_hits (ph : Phase) (bs : list (Batch Clip)) (st : St)
    (col : list F) :
  Forall (λ r, two_class_row N r = true) (observed_probs B ph bs st) →
  Forall2 (λ (row : list F) p, row !! 1%nat = Some p) (observed_probs B ph bs st) col →
  observed_hits N B ph bs st = count_equal (threshold N col) (concat bs).*2.
Proof.
  revert st col. induction bs as [|b bs IH]; intros st col Htwo Hcol.
  - cbn in *. apply Forall2_nil_inv_l in Hcol as ->. done.
  - cbn [observed_probs] in Htwo, Hcol. cbn [observed_hits concat].
    apply Forall_app in Htwo as [Hb Hrest].
    apply Forall2_app_inv_l in Hcol as (c1 & c2 & Hc1 & Hc2 & ->).
    rewrite fmap_app. unfold threshold. rewrite map_app. fold (threshold N c1) (threshold N c2).
    rewrite count_equal_app.
    + by rewrite (two_class_hits _ _ _ Hb Hc1), (IH _ _ Hrest Hc2).
    + unfold threshold. rewrite length_map, length_fmap.
      by rewrite <- (Forall2_length _ _ _ Hc1), batch_probs_length.
Qed.

Lemma finished_batches_accuracy (ph : Phase) (bs : list (Batch Clip)) (st st2 : St)
    (acc : Running) :
  trainval_batches N B ph bs (running0 N) st = (Done acc, st2) →
  Forall (λ r, two_class_row N r = true) (observed_probs B ph bs st) →
  dump_hits N (map csv_row (zip (running_labels acc) (running_probs acc)))
    = running_corrects acc ∧
  running_corrects acc = observed_hits N B ph bs st ∧
  length (map csv_row (zip (running_labels acc) (running_probs acc)))
    = length (concat bs).
Proof.
  intros H Htwo. pose proof (finished_batches_dump _ _ _ _ _ H) as (Hlab & Hrows & Hlen).
  apply trainval_batches_done in H as (_ & _ & Hhits & _). cbn in Hhits.
  rewrite dump_hits_threshold, Hhits, Hlab.
  rewrite (two_class_observed_hits _ _ _ _ Htwo Hrows). repeat split; try done.
  rewrite length_map, length_zip_with, length_fmap. lia.
Qed.

(** C4 (as amended): when every probability row of the split has two
    entries on which arg-max and the 0.5 threshold on entry 1 agree (a
    two-class model whose rows sum to one), and the loader yields the whole
    split, the accuracy recomputed from the dump -- predict 1 iff the
    probability exceeds 0.5 -- equals the logged accuracy, which is the
    number of arg-max hits divided by the split size. *)
Theorem dump_accuracy_matches_logged (cfg : Config) (e : Z) (st : St) :
  (∀ ph st',
     run_phase N B cfg ph e st = (Done tt, st') →
     Forall (λ r, two_class_row N r = true)
            (observed_probs B ph (loader B ph e) (enter_phase B ph st)) →
     dataset_len B ph = Z.of_nat (length (concat (loader B ph e))) →
     ∃ rows m,
       st_fs st' !! csv_path (predictions_dir cfg) (phase_name ph) e = Some (CsvFile rows) ∧
       st_scalars st' = st_scalars st ++ phase_scalars (phase_name ph) m e ∧
       dump_accuracy N rows = epoch_acc m ∧
       epoch_acc m =
       fdiv N (of_int N (observed_hits N B ph (loader B ph e) (enter_phase B ph st)))
              (of_int N (dataset_len B ph))) ∧
  (∀ st',
     test_pass N B cfg e st = (Done tt, st') →
     Forall (λ r, two_class_row N r = true)
            (observed_probs B Val (test_loader B e) (set_training false st)) →
     test_len B = Z.of_nat (length (concat (test_loader B e))) →
     ∃ rows m,
       st_fs st' !! csv_path (predictions_dir cfg) "test" e = Some (CsvFile rows) ∧
       st_scalars st' = st_scalars st ++ phase_scalars "test" m e ∧
       dump_accuracy N rows = epoch_acc m ∧
       epoch_acc m =
       fdiv N (of_int N (observed_hits N B Val (test_loader B e) (set_training false st)))
              (of_int N (test_len B))).
Proof.
  split.
  - intros ph st' H Htwo Hsize.
    apply run_phase_done in H as (acc & m & st2 & Hloop & Hm & Hfs & Hsc).
    apply finished_batches_accuracy in Hloop as (Hhits & Hobs & Hlen); [|done].
    apply epoch_metrics_done in Hm as (_ & _ & _ & Hacc & _).
    eexists _, m. rewrite Hfs, lookup_insert_eq. split; [done|]. split; [done|].
    rewrite Hacc. unfold dump_accuracy. cbn [tail].
    by rewrite Hhits, Hlen, <- Hsize, Hobs.
  - intros st' H Htwo Hsize.
    apply test_pass_done in H as (acc & m & st2 & Hloop & Hm & Hfs & Hsc).
    apply finished_batches_accuracy in Hloop as (Hhits & Hobs & Hlen); [|done].
    apply epoch_metrics_done in Hm as (_ & _ & _ & Hacc & _).
    eexists _, m. rewrite Hfs, lookup_insert_eq. split; [done|]. split; [done|].
    rewrite Hacc. unfold dump_accuracy. cbn [tail].
    by rewrite Hhits, Hlen, <- Hsize, Hobs.
Qed.

End Shapes.

(** ** Single-class splits (C3) *)

Section Degenerate.
(** Contract of the metric library: the AUC of a true-label list with a
    single class is undefined and [roc_auc_score] raises. *)
Hypothesis auc_undefined :
  ∀ labels probs, single_class labels = true → roc_auc_score B labels probs = None.

Lemma epoch_metrics_single_class (size : Z) (acc : Running) (st : St) :
  size ≠ 0 → single_class (running_labels acc) = true →
  epoch_metrics N B size acc st = (Fatal AucValueError, st).
Proof.
  intros Hsize Hone. unfold epoch_metrics, bind.
  destruct (decide (size = 0)); [done|]. by rewrite auc_undefined.
Qed.

Lemma run_phase_single_class (cfg : Config) (ph : Phase) (e : Z) (st st1 : St)
    (acc : Running) :
  trainval_batches N B ph (loader B ph e) (running0 N) (enter_phase B ph st)
    = (Done acc, st1) →
  dataset_len B ph ≠ 0 → single_class (running_labels acc) = true →
  run_phase N B cfg ph e st = (Fatal AucValueError, st1) ∧
  st_fs st1 = st_fs st ∧ st_scalars st1 = st_scalars st.
Proof.
  intros Hloop Hsize Hone. split.
  - unfold run_phase. rewrite (bind_run_done _ _ _ _ _ (enter_phase_run ph st)).
    rewrite (bind_run_done _ _ _ _ _ Hloop).
    apply bind_run_fatal. by apply epoch_metrics_single_class.
  - pose proof (trainval_batches_outputs ph (loader B ph e) (running0 N)
                  (enter_phase B ph st)) as [Hfs Hsc].
    rewrite Hloop in Hfs, Hsc. cbn in Hfs, Hsc. rewrite Hfs, Hsc. by destruct ph.
Qed.

Lemma test_pass_single_class (cfg : Config) (e : Z) (st st1 : St) (acc : Running) :
  test_batches N B (test_loader B e) (running0 N) (set_training false st)
    = (Done acc, st1) →
  test_len B ≠ 0 → single_class (running_labels acc) = true →
  test_pass N B cfg e st = (Fatal AucValueError, st1) ∧
  st_fs st1 = st_fs st ∧ st_scalars st1 = st_scalars st.
Proof.
  intros Hloop Hsize Hone. split.
  - unfold test_pass.
    rewrite (bind_run_done (modify (set_training false)) _ st (set_training false st) tt)
      by done.
    rewrite (bind_run_done _ _ _ _ _ Hloop).
    apply bind_run_fatal. by apply epoch_metrics_single_class.
  - pose proof (keeps_test_batches same_outputs (test_loader B e) (running0 N)
                  (set_training false st)) as [Hfs Hsc].
    rewrite Hloop in Hfs, Hsc. cbn in Hfs, Hsc. by rewrite Hfs, Hsc.
Qed.

(** C3 (as amended): when the true labels accumulated over a non-empty
    split contain a single class, the run dies there with the error raised
    by [roc_auc_score]: nothing is logged and no dump is written for that
    (epoch, split).  For the train and validation splits no checkpoint of
    the epoch is written either; for the test split the epoch's checkpoint,
    when due, has already been written before the test pass and stays. *)
Theorem single_class_split_is_fatal (cfg : Config) (e : Z) (es : list Z) (st : St) :
  (∀ acc st1,
     trainval_batches N B Train (loader B Train e) (running0 N) (enter_phase B Train st)
       = (Done acc, st1) →
     dataset_len B Train ≠ 0 → single_class (running_labels acc) = true →
     epoch_loop N B cfg (e :: es) st = (Fatal AucValueError, st1) ∧
     st_fs st1 = st_fs st ∧ st_scalars st1 = st_scalars st) ∧
  (∀ stT acc st1,
     run_phase N B cfg Train e st = (Done tt, stT) →
     trainval_batches N B Val (loader B Val e) (running0 N) (enter_phase B Val stT)
       = (Done acc, st1) →
     dataset_len B Val ≠ 0 → single_class (running_labels acc) = true →
     epoch_loop N B cfg (e :: es) st = (Fatal AucValueError, st1) ∧
     st_fs st1 = st_fs stT ∧ st_scalars st1 = st_scalars stT ∧
     st_fs st1 !! ckpt_path cfg e = st_fs st !! ckpt_path cfg e) ∧
  (∀ stT stV stC acc st1,
     run_phase N B cfg Train e st = (Done tt, stT) →
     run_phase N B cfg Val e stT = (Done tt, stV) →
     maybe_checkpoint cfg e stV = (Done tt, stC) →
     useTest cfg = true → test_interval cfg ≠ 0 →
     e `mod` test_interval cfg = test_interval cfg - 1 →
     test_batches N B (test_loader B e) (running0 N) (set_training false stC)
       = (Done acc, st1) →
     test_len B ≠ 0 → single_class (running_labels acc) = true →
     epoch_loop N B cfg (e :: es) st = (Fatal AucValueError, st1) ∧
     st_fs st1 = st_fs stC ∧ st_scalars st1 = st_scalars stC ∧
     (0 < save_epoch cfg → (save_epoch cfg | e + 1) →
      st_fs st1 !! ckpt_path cfg e =
      Some (CkptFile {| ck_epoch := e + 1; ck_state_dict := st_params stV;
                        ck_opt_dict := st_opt stV |}))).
Proof.
  split; [|split].
  - intros acc st1 Hloop Hsize Hone.
    destruct (run_phase_single_class cfg Train e st st1 acc Hloop Hsize Hone)
      as (Hrun & Hfs & Hsc).
    split; [|done]. cbn [epoch_loop]. unfold run_epoch.
    by do 2 apply bind_run_fatal.
  - intros stT acc st1 Htrain Hloop Hsize Hone.
    destruct (run_phase_single_class cfg Val e stT st1 acc Hloop Hsize Hone)
      as (Hrun & Hfs & Hsc).
    split; [|split; [done|split; [done|]]].
    + cbn [epoch_loop]. unfold run_epoch. apply bind_run_fatal.
      rewrite (bind_run_done _ _ _ _ _ Htrain). by apply bind_run_fatal.
    + rewrite Hfs.
      pose proof (run_phase_keeps_checkpoints cfg Train e (λ _, True) st e I) as Hk.
      by rewrite Htrain in Hk.
  - intros stT stV stC acc st1 Htrain Hval Hck Huse Hti Hdue Hloop Hsize Hone.
    destruct (test_pass_single_class cfg e stC st1 acc Hloop Hsize Hone)
      as (Hrun & Hfs & Hsc).
    split; [|split; [done|split; [done|]]].
    + cbn [epoch_loop]. apply bind_run_fatal.
      rewrite (run_epoch_after_phases _ _ _ _ _ Htrain Hval).
      rewrite (bind_run_done _ _ _ _ _ Hck). unfold maybe_test. rewrite Huse.
      destruct (decide (test_interval cfg = 0)); [done|].
      by destruct (decide _).
    + intros Hs Hdiv. rewrite Hfs.
      rewrite maybe_checkpoint_due in Hck by done. simplify_eq. cbn.
      apply lookup_insert_eq.
Qed.

End Degenerate.

(** ** Further properties of the orchestration *)

Global Instance same_last_epoch_po : PreOrder (@same_last_epoch F Params OptState).
Proof. split; [by intros st|]. intros a b c H1 H2. unfold same_last_epoch in *. congruence. Qed.

Global Instance same_scalars_po : PreOrder (@same_scalars F Params OptState).
Proof. split; [by intros st|]. intros a b c H1 H2. unfold same_scalars in *. congruence. Qed.

Global Instance same_file_po (p : string) : PreOrder (@same_file F Params OptState p).
Proof. split; [by intros st|]. intros a b c H1 H2. unfold same_file in *. congruence. Qed.

Global Instance same_files_outside_po (d1 d2 : string) :
  PreOrder (@same_files_outside F Params OptState d1 d2).
Proof.
  split; [by intros st|]. intros a b c H1 H2 p Hp1 Hp2. by rewrite H2, H1.
Qed.

Lemma keeps_maybe_test (R : relation St) `{!PreOrder R} (cfg : Config) (e : Z) :
  (∀ b st, R st (set_training b st)) →
  (∀ rows st, R st (write_file (csv_path (predictions_dir cfg) "test" e)
                               (CsvFile rows) st)) →
  (∀ tag v st, R st (push_scalar tag v e st)) →
  keeps R (maybe_test N B cfg e).
Proof.
  intros Hmode Hcsv Hlog. unfold maybe_test.
  destruct (useTest cfg); [|apply keeps_ret; apply _].
  destruct (decide _); [apply keeps_raise; apply _|].
  destruct (decide _); [|apply keeps_ret; apply _].
  by apply keeps_test_pass.
Qed.

(** What the rest of a phase does to the state its batches start in. *)
Lemma run_phase_body_keeps (R : relation St) `{!PreOrder R}
    (cfg : Config) (ph : Phase) (e : Z) (st : St) :
  (ph = Train → ∀ i l s, R s (optimise B i l s)) →
  (∀ rows s, R s (write_file (csv_path (predictions_dir cfg) (phase_name ph) e)
                             (CsvFile rows) s)) →
  (∀ tag v s, R s (push_scalar tag v e s)) →
  R (enter_phase B ph st) (run_phase N B cfg ph e st).2.
Proof.
  intros Hopt Hcsv Hlog. unfold run_phase.
  rewrite (bind_run_done _ _ _ _ _ (enter_phase_run ph st)).
  apply keeps_bind; [apply _ | by apply keeps_trainval_batches | intros acc].
  apply keeps_bind; [apply _ | apply keeps_epoch_metrics; apply _ | intros m].
  apply keeps_bind; [apply _ | | intros _].
  { unfold save_to_csv. apply keeps_modify. intros s. apply Hcsv. }
  destruct ph; unfold log_train, log_val, add_scalar; keeps_tac; by apply Hlog.
Qed.

(** *** Output paths *)

Lemma csv_name_epoch_inj (n1 n2 : string) (e1 e2 : Z) :
  dump_name n1 → dump_name n2 →
  n1 +:+ "_epoch_" +:+ str e1 +:+ ".csv" = n2 +:+ "_epoch_" +:+ str e2 +:+ ".csv" →
  n1 = n2 ∧ e1 = e2.
Proof.
  intros [->|[->| ->]] [->|[->| ->]] H; try discriminate H.
  all: split; [done|]; do 2 apply String.app_inj in H;
    apply append_inv_tail in H; by apply pretty_Z_inj in H.
Qed.

Lemma dump_name_csv_path (cfg : Config) (n : string) (e : Z) :
  dump_name n →
  csv_path (predictions_dir cfg) n e =
  predictions_prefix cfg +:+ n +:+ "_epoch_" +:+ str e +:+ ".csv".
Proof.
  unfold predictions_prefix. rewrite !append_assoc.
  intros [->|[->| ->]]; by apply csv_path_eq.
Qed.

Lemma output_paths_are_distinct_aux (cfg : Config) (n1 n2 : string) (e1 e2 : Z) :
  csv_path (predictions_dir cfg) n1 e1 = csv_path (predictions_dir cfg) n2 e2 →
  dump_name n1 → dump_name n2 → n1 = n2 ∧ e1 = e2.
Proof.
  intros H H1 H2. rewrite !dump_name_csv_path in H by done.
  apply String.app_inj in H. by apply csv_name_epoch_inj.
Qed.

(** X1: dump files are named apart: the prediction dump path determines the
    phase and the epoch, and no dump path is a checkpoint path. *)
Theorem output_paths_are_distinct (cfg : Config) (n1 n2 : string) (e1 e2 k : Z) :
  dump_name n1 → dump_name n2 →
  (csv_path (predictions_dir cfg) n1 e1 = csv_path (predictions_dir cfg) n2 e2 →
   n1 = n2 ∧ e1 = e2) ∧
  csv_path (predictions_dir cfg) n1 e1 ≠ ckpt_path cfg k.
Proof.
  intros H1 H2. split.
  - intros H. by apply (output_paths_are_distinct_aux cfg n1 n2 e1 e2).
  - destruct H1 as [->|[->| ->]]; by apply ckpt_csv_ne.
Qed.

Ltac frame_step :=
  intros;
  first [ discriminate
        | done
        | unfold same_last_epoch, same_scalars, same_file, same_files_outside; cbn; done ].

(** *** Scheduler cadence *)

Lemma run_epoch_last_epoch (cfg : Config) (e : Z) (st : St) :
  st_last_epoch (run_epoch N B cfg e st).2 = st_last_epoch st + 1.
Proof.
  assert (st_last_epoch (run_phase N B cfg Train e st).2 = st_last_epoch st + 1)
    as Htrain.
  { exact (run_phase_body_keeps same_last_epoch cfg Train e st
             ltac:(frame_step) ltac:(frame_step) ltac:(frame_step)). }
  unfold run_epoch. unfold bind at 1.
  destruct (run_phase N B cfg Train e st) as [[[]|err] s1]; cbn in Htrain |- *; [|done].
  rewrite <- Htrain.
  apply (keeps_bind same_last_epoch).
  { apply keeps_run_phase; [apply _|..]; frame_step. }
  intros _. apply keeps_bind; [apply _ | | intros _].
  - apply keeps_maybe_checkpoint; [apply _|]; frame_step.
  - apply keeps_maybe_test; [apply _|..]; frame_step.
Qed.

Lemma epoch_loop_last_epoch (cfg : Config) (es : list Z) (st st' : St) :
  epoch_loop N B cfg es st = (Done tt, st') →
  st_last_epoch st' = st_last_epoch st + Z.of_nat (length es).
Proof.
  revert st. induction es as [|e es IH]; intros st H.
  - cbn in H. unfold ret in H. simplify_eq. cbn. lia.
  - cbn [epoch_loop] in H. apply bind_done_inv in H as ([] & s1 & He & Hrest).
    rewrite (IH _ Hrest).
    pose proof (run_epoch_last_epoch cfg e st) as H1. rewrite He in H1. cbn in H1.
    rewrite H1. cbn [length]. lia.
Qed.

(** X2: every epoch that starts takes exactly one scheduler step, whatever
    happens afterwards; a finished run leaves the scheduler counter advanced
    by the number of epochs it ran, [max 0 (num_epochs - resume_epoch)] --
    also when resuming, where the counter starts anew instead of at the
    resume epoch. *)
Theorem scheduler_steps_once_per_epoch (cfg : Config) (st : St) :
  (∀ e, st_last_epoch (run_epoch N B cfg e st).2 = st_last_epoch st + 1) ∧
  (∀ st', train_model N B cfg st = (Done tt, st') →
          st_last_epoch st' =
          st_last_epoch st + Z.max 0 (num_epochs cfg - resume_epoch cfg)).
Proof.
  split; [intros e; apply run_epoch_last_epoch|].
  intros st' H. unfold train_model in H.
  apply bind_done_inv in H as ([] & s0 & Hload & Hloop).
  apply epoch_loop_last_epoch in Hloop. rewrite Hloop.
  assert (st_last_epoch s0 = st_last_epoch st) as ->.
  { assert (keeps same_last_epoch
              (if decide (resume_epoch cfg = 0) then ret tt else load_checkpoint B cfg))
      as Hk.
    { destruct (decide _); [apply keeps_ret; apply _|].
      apply keeps_load_checkpoint; [apply _|..]; frame_step. }
    specialize (Hk st). by rewrite Hload in Hk. }
  unfold epoch_range. rewrite length_seqZ. lia.
Qed.

(** *** A phase that dies writes nothing *)

Lemma epoch_metrics_state (size : Z) (acc : Running) (st : St) :
  (epoch_metrics N B size acc st).2 = st.
Proof. symmetry. apply (keeps_epoch_metrics eq). Qed.

Lemma finish_phase_done (ph : Phase) (cfg : Config) (e : Z) (acc : Running)
    (m : Metrics) (st : St) :
  ∃ st', bind (save_to_csv e (phase_name ph) (running_labels acc) (running_probs acc)
                 (predictions_dir cfg))
              (λ _, match ph with Train => log_train m e | Val => log_val m e end) st
         = (Done tt, st').
Proof.
  unfold bind, save_to_csv, modify. rewrite log_phase_run. by eexists.
Qed.

(** X4: the dump and the five scalars of a phase are written together after all
    its metrics were computed: a phase that dies -- for whatever error, in
    the batch loop or in a metric -- has written no file and appended no
    scalar; the same holds for the test pass. *)
Theorem failed_phase_writes_nothing (cfg : Config) (e : Z) (st st' : St) (err : error) :
  (∀ ph, run_phase N B cfg ph e st = (Fatal err, st') →
         st_fs st' = st_fs st ∧ st_scalars st' = st_scalars st) ∧
  (test_pass N B cfg e st = (Fatal err, st') →
   st_fs st' = st_fs st ∧ st_scalars st' = st_scalars st).
Proof.
  split.
  - intros ph H. unfold run_phase in H.
    rewrite (bind_run_done _ _ _ _ _ (enter_phase_run ph st)) in H.
    pose proof (trainval_batches_outputs ph (loader B ph e) (running0 N)
                  (enter_phase B ph st)) as Hout.
    unfold bind at 1 in H.
    destruct (trainval_batches N B ph (loader B ph e) (running0 N) (enter_phase B ph st))
      as [[acc|er] s2]; cbn in Hout.
    + pose proof (epoch_metrics_state (dataset_len B ph) acc s2) as Hm.
      unfold bind at 1 in H.
      destruct (epoch_metrics N B (dataset_len B ph) acc s2) as [[m|er] s3]; cbn in Hm.
      * destruct (finish_phase_done ph cfg e acc m s3) as [s4 Hfin].
        rewrite Hfin in H. discriminate H.
      * simplify_eq. destruct Hout as [-> ->]. by destruct ph.
    + simplify_eq. destruct Hout as [-> ->]. by destruct ph.
  - intros H. unfold test_pass in H.
    rewrite (bind_run_done (modify (set_training false)) _ st (set_training false st) tt)
      in H by done.
    pose proof (keeps_test_batches same_outputs (test_loader B e) (running0 N)
                  (set_training false st)) as Hout.
    unfold bind at 1 in H.
    destruct (test_batches N B (test_loader B e) (running0 N) (set_training false st))
      as [[acc|er] s2]; cbn in Hout.
    + pose proof (epoch_metrics_state (test_len B) acc s2) as Hm.
      unfold bind at 1 in H.
      destruct (epoch_metrics N B (test_len B) acc s2) as [[m|er] s3]; cbn in Hm.
      * unfold bind, save_to_csv, modify in H. rewrite log_test_run in H. discriminate H.
      * simplify_eq. by destruct Hout as [-> ->].
    + simplify_eq. by destruct Hout as [-> ->].
Qed.

(** *** Scalars of a finished epoch *)

Lemma maybe_checkpoint_scalars (cfg : Config) (e : Z) (st : St) :
  st_scalars (maybe_checkpoint cfg e st).2 = st_scalars st.
Proof. apply (keeps_maybe_checkpoint same_scalars); frame_step. Qed.

Lemma maybe_test_done (cfg : Config) (e : Z) (st st' : St) :
  maybe_test N B cfg e st = (Done tt, st') →
  if test_due cfg e then test_pass N B cfg e st = (Done tt, st') else st' = st.
Proof.
  unfold maybe_test, test_due. destruct (useTest cfg); cbn; [|unfold ret; congruence].
  destruct (decide (test_interval cfg = 0)) as [Hz|Hz].
  - intros H. discriminate H.
  - rewrite (bool_decide_eq_true_2 _ Hz). cbn.
    destruct (decide _) as [Hd|Hd].
    + by rewrite (bool_decide_eq_true_2 _ Hd).
    + rewrite (bool_decide_eq_false_2 _ Hd). unfold ret. congruence.
Qed.

(** X3: a finished epoch appends to the scalar stream exactly the five train
    scalars, then the five validation scalars, then -- when the test pass
    is due -- the five test scalars, all carrying the epoch's index: 10 or
    15 entries. *)
Theorem finished_epoch_scalars (cfg : Config) (e : Z) (st st' : St) :
  run_epoch N B cfg e st = (Done tt, st') →
  ∃ mT mV tests,
    st_scalars st' =
      st_scalars st ++ phase_scalars "train" mT e ++ phase_scalars "val" mV e ++ tests ∧
    (if test_due cfg e then ∃ mS, tests = phase_scalars "test" mS e else tests = []) ∧
    Forall (λ s : string * F * Z, s.2 = e)
           (phase_scalars "train" mT e ++ phase_scalars "val" mV e ++ tests) ∧
    length (st_scalars st') =
      (length (st_scalars st) + 10 + (if test_due cfg e then 5 else 0))%nat.
Proof.
  intros H. unfold run_epoch in H.
  apply bind_done_inv in H as ([] & s1 & Htrain & H).
  apply bind_done_inv in H as ([] & s2 & Hval & H).
  apply bind_done_inv in H as ([] & s3 & Hck & Htest).
  apply run_phase_done in Htrain as (accT & mT & _ & _ & _ & _ & HscT).
  apply run_phase_done in Hval as (accV & mV & _ & _ & _ & _ & HscV).
  pose proof (maybe_checkpoint_scalars cfg e s2) as Hsc3. rewrite Hck in Hsc3. cbn in Hsc3.
  apply maybe_test_done in Htest. cbn [phase_name] in HscT, HscV.
  destruct (test_due cfg e).
  - apply test_pass_done in Htest as (accS & mS & _ & _ & _ & _ & HscS).
    exists mT, mV, (phase_scalars "test" mS e).
    rewrite HscS, Hsc3, HscV, HscT, <- !app_assoc.
    split; [done|]. split; [by eexists|]. split.
    + unfold phase_scalars. by repeat constructor.
    + rewrite !length_app. cbn. lia.
  - subst st'. exists mT, mV, [].
    rewrite Hsc3, HscV, HscT, <- !app_assoc.
    split; [done|]. split; [done|]. split.
    + unfold phase_scalars. by repeat constructor.
    + rewrite !length_app. cbn. lia.
Qed.

(** *** Where a run writes *)

Lemma prefix_append (a b : string) : String.prefix a (a +:+ b) = true.
Proof.
  induction a as [|c a IH]; [by destruct b|].
  change (String.prefix (String c a) (String c (a +:+ b)) = true).
  cbn. destruct (Ascii.ascii_dec c c); [exact IH|done].
Qed.

Lemma ckpt_path_prefix (cfg : Config) (e : Z) :
  String.prefix (models_prefix cfg) (ckpt_path cfg e) = true.
Proof.
  assert (ckpt_path cfg e =
          models_prefix cfg +:+ saveName cfg +:+ "_epoch-" +:+ str e +:+ ".pth.tar") as ->.
  { rewrite ckpt_path_eq. unfold models_prefix. by rewrite !append_assoc. }
  apply prefix_append.
Qed.

Lemma csv_path_prefix (cfg : Config) (n : string) (e : Z) :
  dump_name n →
  String.prefix (predictions_prefix cfg) (csv_path (predictions_dir cfg) n e) = true.
Proof. intros Hn. rewrite dump_name_csv_path by done. apply prefix_append. Qed.

Lemma write_outside (cfg : Config) (path : string) (f : File F Params OptState) (st : St) :
  String.prefix (models_prefix cfg) path = true ∨
  String.prefix (predictions_prefix cfg) path = true →
  same_files_outside (models_prefix cfg) (predictions_prefix cfg) st (write_file path f st).
Proof.
  intros Hin p Hp1 Hp2. cbn. apply lookup_insert_ne. intros ->.
  destruct Hin; congruence.
Qed.

Lemma phase_name_dump_name (ph : Phase) : dump_name (phase_name ph).
Proof. destruct ph; [by left | by right; left]. Qed.

(** X6: a run -- fresh or resumed, finished or not -- creates and changes
    files only under [save_dir/models/] and [save_dir/predictions/]: every
    other path of the file system holds afterwards what it held before. *)
Theorem run_writes_only_under_save_dir (cfg : Config) (st : St) (p : string) :
  String.prefix (models_prefix cfg) p = false →
  String.prefix (predictions_prefix cfg) p = false →
  st_fs (train_model N B cfg st).2 !! p = st_fs st !! p.
Proof.
  assert (keeps (same_files_outside (models_prefix cfg) (predictions_prefix cfg))
                (train_model N B cfg)) as H; [|apply H].
  assert (∀ e ph, keeps (same_files_outside (models_prefix cfg) (predictions_prefix cfg))
                        (run_phase N B cfg ph e)) as Hph.
  { intros e ph. apply keeps_run_phase; [apply _|..]; try frame_step.
    intros rows s. apply write_outside. right.
    apply csv_path_prefix, phase_name_dump_name. }
  unfold train_model. apply keeps_bind; [apply _ | | intros _].
  { destruct (decide _); [apply keeps_ret; apply _|].
    apply keeps_load_checkpoint; [apply _|..]; frame_step. }
  apply keeps_epoch_loop; [apply _|]. intros e. unfold run_epoch.
  apply keeps_bind; [apply _ | apply Hph | intros _].
  apply keeps_bind; [apply _ | apply Hph | intros _].
  apply keeps_bind; [apply _ | | intros _].
  - apply keeps_maybe_checkpoint; [apply _|]. intros q o s.
    apply write_outside. left. apply ckpt_path_prefix.
  - apply keeps_maybe_test; [apply _|..]; try frame_step.
    intros rows s. apply write_outside. right. apply csv_path_prefix. by right; right.
Qed.

(** *** Dumps of a finished run *)




(** *** Degenerate intervals *)

Lemma maybe_checkpoint_nonzero (cfg : Config) (e : Z) (st : St) :
  save_epoch cfg ≠ 0 → ∃ st', maybe_checkpoint cfg e st = (Done tt, st').
Proof.
  intros Hs. unfold maybe_checkpoint, save_checkpoint, modify, ret.
  destruct (decide (save_epoch cfg = 0)); [done|]. destruct (decide _); by eexists.
Qed.

(** X7: a zero interval is a division by zero in [epoch % interval]: with
    checkpoint interval 0 the run dies at the end of the first epoch whose
    two phases finish, after their dumps and scalars were written and with
    no checkpoint; with test interval 0 and test evaluation enabled it dies
    right after the checkpoint step. *)
Theorem zero_interval_is_fatal (cfg : Config) (e : Z) (es : list Z) (st st1 st2 : St) :
  run_phase N B cfg Train e st = (Done tt, st1) →
  run_phase N B cfg Val e st1 = (Done tt, st2) →
  (save_epoch cfg = 0 →
   epoch_loop N B cfg (e :: es) st = (Fatal ZeroDivisionError, st2)) ∧
  (save_epoch cfg ≠ 0 → useTest cfg = true → test_interval cfg = 0 →
   epoch_loop N B cfg (e :: es) st
   = (Fatal ZeroDivisionError, (maybe_checkpoint cfg e st2).2)).
Proof.
  intros H1 H2. split.
  - intros Hz. cbn [epoch_loop]. apply bind_run_fatal.
    rewrite (run_epoch_after_phases _ _ _ _ _ H1 H2).
    apply bind_run_fatal. unfold maybe_checkpoint.
    by destruct (decide (save_epoch cfg = 0)).
  - intros Hs Huse Hz. cbn [epoch_loop]. apply bind_run_fatal.
    rewrite (run_epoch_after_phases _ _ _ _ _ H1 H2).
    destruct (maybe_checkpoint_nonzero cfg e st2 Hs) as [st3 Hck].
    rewrite (bind_run_done _ _ _ _ _ Hck), Hck. cbn.
    unfold maybe_test. rewrite Huse. by destruct (decide (test_interval cfg = 0)).
Qed.

Lemma maybe_checkpoint_negative (cfg : Config) (e : Z) (st : St) :
  save_epoch cfg < 0 → maybe_checkpoint cfg e st = (Done tt, st).
Proof.
  intros Hs. unfold maybe_checkpoint.
  destruct (decide (save_epoch cfg = 0)); [lia|].
  destruct (decide _) as [Hm|]; [|done].
  pose proof (Z.mod_neg_bound e (save_epoch cfg) Hs). lia.
Qed.

(** X8: with a negative checkpoint interval the floored remainder
    [epoch % interval] is never [interval - 1]: the run never writes a
    checkpoint. *)
Theorem negative_interval_never_saves (cfg : Config) (st : St) (k : Z) :
  save_epoch cfg < 0 →
  st_fs (train_model N B cfg st).2 !! ckpt_path cfg k = st_fs st !! ckpt_path cfg k.
Proof.
  intros Hs.
  assert (keeps (same_checkpoints_on cfg (λ _, True)) (train_model N B cfg)) as H;
    [|by apply H].
  unfold train_model. apply keeps_bind; [apply _ | | intros _].
  { destruct (decide _); [apply keeps_ret; apply _|].
    apply keeps_load_checkpoint; [apply _|..]; done. }
  apply keeps_epoch_loop; [apply _|]. intros e. unfold run_epoch.
  apply keeps_bind; [apply _ | apply run_phase_keeps_checkpoints | intros _].
  apply keeps_bind; [apply _ | apply run_phase_keeps_checkpoints | intros _].
  apply keeps_bind; [apply _ | | intros _; apply maybe_test_keeps_checkpoints].
  intros s. by rewrite maybe_checkpoint_negative.
Qed.

Lemma epoch_loop_ext (cfg cfg' : Config) (es : list Z) :
  (∀ e st, run_epoch N B cfg e st = run_epoch N B cfg' e st) →
  ∀ st, epoch_loop N B cfg es st = epoch_loop N B cfg' es st.
Proof.
  intros Hrun. induction es as [|e es IH]; intros st; [done|].
  cbn [epoch_loop]. unfold bind. rewrite Hrun.
  destruct (run_epoch N B cfg' e st) as [[[]|err] s1]; [apply IH|done].
Qed.

(** X9: [useTest and ...] short-circuits: with test evaluation disabled the
    test interval is never evaluated, so the run is the same for every
    value of it, zero included. *)
Theorem test_interval_unused_when_disabled (cfg : Config) (t : Z) (st : St) :
  useTest cfg = false →
  train_model N B (with_test_interval t cfg) st = train_model N B cfg st.
Proof.
  intros Hoff. unfold train_model.
  change (resume_epoch (with_test_interval t cfg)) with (resume_epoch cfg).
  change (load_checkpoint B (with_test_interval t cfg)) with (load_checkpoint B cfg).
  change (epoch_range (with_test_interval t cfg)) with (epoch_range cfg).
  unfold bind.
  destruct ((if decide (resume_epoch cfg = 0) then ret tt else load_checkpoint B cfg) st)
    as [[[]|err] s0]; [|done].
  apply epoch_loop_ext. intros e s. unfold run_epoch.
  change (run_phase N B (with_test_interval t cfg)) with (run_phase N B cfg).
  change (maybe_checkpoint (with_test_interval t cfg) e)
    with (maybe_checkpoint (F:=F) (Params:=Params) (OptState:=OptState) cfg e).
  unfold maybe_test. cbn [useTest with_test_interval]. by rewrite Hoff.
Qed.

(** *** [save_to_csv] on its own *)



(** *** Trainable state within an epoch *)

Lemma run_phase_trainable (cfg : Config) (ph : Phase) (e : Z) (st st' : St) :
  run_phase N B cfg ph e st = (Done tt, st') →
  st_params st' = st_params (after_batches B ph (loader B ph e) (enter_phase B ph st)) ∧
  st_opt st' = st_opt (after_batches B ph (loader B ph e) (enter_phase B ph st)).
Proof.
  unfold run_phase. intros H.
  inv_bind H as u s1 Henter. rewrite enter_phase_run in Henter. simplify_eq.
  inv_bind H as acc s2 Hloop. apply trainval_batches_done in Hloop as (-> & _).
  inv_bind H as m s3 Hm. apply epoch_metrics_done in Hm as (-> & _).
  inv_bind H as u' s4 Hcsv. unfold save_to_csv, modify in Hcsv. simplify_eq.
  rewrite log_phase_run in H. by simplify_eq.
Qed.

(** X11: within an epoch only the training phase changes the trainable state,
    by one optimizer step per batch in loader order starting from the
    scheduler-stepped state: whatever the validation phase, the checkpoint
    step and the test pass do afterwards, parameters and optimizer state at
    the end of the epoch are those the training phase left, and these are
    what a checkpoint of the epoch stores. *)
Theorem epoch_trains_only_in_training_phase (cfg : Config) (e : Z) (st st1 : St) :
  run_phase N B cfg Train e st = (Done tt, st1) →
  let trained :=
    foldl (λ s b, optimise B b.*1 b.*2 s)
          (set_training true (scheduler_step B st)) (loader B Train e) in
  st_params st1 = st_params trained ∧ st_opt st1 = st_opt trained ∧
  st_params (run_epoch N B cfg e st).2 = st_params trained ∧
  st_opt (run_epoch N B cfg e st).2 = st_opt trained ∧
  (∀ ck, st_fs (run_epoch N B cfg e st).2 !! ckpt_path cfg e = Some (CkptFile ck) →
         st_fs st !! ckpt_path cfg e ≠ Some (CkptFile ck) →
         ck_state_dict ck = st_params trained ∧ ck_opt_dict ck = st_opt trained).
Proof.
  intros Htrain trained.
  destruct (run_phase_trainable _ _ _ _ _ Htrain) as [Hp Ho].
  change (after_batches B Train (loader B Train e) (enter_phase B Train st))
    with trained in Hp, Ho.
  split; [done|]. split; [done|].
  unfold run_epoch. rewrite (bind_run_done _ _ _ _ _ Htrain).
  assert (keeps same_trainable (run_phase N B cfg Val e)) as Kval
    by (apply (keeps_run_phase same_trainable); done).
  assert (keeps same_trainable (maybe_test N B cfg e)) as Ktest
    by (apply (keeps_maybe_test same_trainable); done).
  assert (keeps same_trainable (maybe_checkpoint cfg e : Comp unit)) as Kck
    by (apply (keeps_maybe_checkpoint same_trainable); done).
  assert (keeps same_trainable
            (bind (run_phase N B cfg Val e)
               (λ _, bind (maybe_checkpoint cfg e) (λ _, maybe_test N B cfg e)))) as K.
  { apply keeps_bind; [apply _ | done | intros _].
    apply keeps_bind; [apply _ | done | by intros _]. }
  destruct (K st1) as [Kp Ko]. rewrite Kp, Ko, Hp, Ho.
  split; [done|]. split; [done|].
  intros ck Hafter Hbefore.
  pose proof (run_phase_keeps_checkpoints cfg Train e (λ _, True) st e I) as KT.
  rewrite Htrain in KT. cbn in KT.
  unfold bind in Hafter at 1.
  pose proof (run_phase_keeps_checkpoints cfg Val e (λ _, True) st1 e I) as KV.
  specialize (Kval st1).
  destruct (run_phase N B cfg Val e st1) as [[[]|err] s2]; cbn in KV, Kval, Hafter.
  2: { rewrite KV, KT in Hafter. by destruct Hbefore. }
  unfold bind in Hafter at 1.
  pose proof (maybe_test_keeps_checkpoints cfg e (λ _, True)) as KS.
  unfold maybe_checkpoint in Hafter.
  destruct (decide (save_epoch cfg = 0)).
  { cbn in Hafter. rewrite KV, KT in Hafter. by destruct Hbefore. }
  destruct (decide _).
  - unfold save_checkpoint, modify in Hafter. rewrite (KS _ e I) in Hafter.
    cbn in Hafter. rewrite lookup_insert_eq in Hafter. simplify_eq. cbn.
    destruct Kval as [-> ->]. by rewrite Hp, Ho.
  - unfold ret in Hafter. rewrite (KS _ e I), KV, KT in Hafter. by destruct Hbefore.
Qed.

(** *** Evaluation is a function of the parameters the phase starts with *)

Lemma observed_probs_val (bs : list (Batch Clip)) (st : St) :
  observed_probs B Val bs st = concat (map (batch_probs B st) bs).
Proof. induction bs as [|b bs IH]; [done|]. cbn. by rewrite IH. Qed.

(** X12: the probabilities a finished validation phase or test pass dumps are
    entry 1 of the rows the model gives in evaluation mode
    ([model.training = False]) with the parameters the phase started with,
    batch by batch in loader order: nothing done during the phase feeds
    back into them. *)
Theorem evaluation_dump_is_static (cfg : Config) (e : Z) (st : St) :
  (∀ st', run_phase N B cfg Val e st = (Done tt, st') →
     ∃ probs,
       st_fs st' !! csv_path (predictions_dir cfg) "val" e =
         Some (dump_of (concat (loader B Val e)).*2 probs) ∧
       Forall2 (λ (row : list F) p, row !! 1%nat = Some p)
         (concat (map (λ b : Batch Clip,
                         map (softmax B) (forward B false (st_params st) b.*1))
                      (loader B Val e))) probs) ∧
  (∀ st', test_pass N B cfg e st = (Done tt, st') →
     ∃ probs,
       st_fs st' !! csv_path (predictions_dir cfg) "test" e =
         Some (dump_of (concat (test_loader B e)).*2 probs) ∧
       Forall2 (λ (row : list F) p, row !! 1%nat = Some p)
         (concat (map (λ b : Batch Clip,
                         map (softmax B) (forward B false (st_params st) b.*1))
                      (test_loader B e))) probs).
Proof.
  split.
  - intros st' H.
    apply run_phase_done in H as (acc & m & st2 & Hloop & _ & Hfs & _).
    apply trainval_batches_done in Hloop as (_ & _ & _ & Hlab & col & Hcol & Hrows).
    cbn in Hlab, Hcol. subst col. exists (running_probs acc).
    rewrite Hfs, lookup_insert_eq, Hlab. split; [done|].
    by rewrite observed_probs_val in Hrows.
  - intros st' H.
    apply test_pass_done in H as (acc & m & st2 & Hloop & _ & Hfs & _).
    apply trainval_batches_done in Hloop as (_ & _ & _ & Hlab & col & Hcol & Hrows).
    cbn in Hlab, Hcol. subst col. exists (running_probs acc).
    rewrite Hfs, lookup_insert_eq, Hlab. split; [done|].
    by rewrite observed_probs_val in Hrows.
Qed.

(** *** The correct-prediction counter *)

Lemma argmax_hits_bounds (rows : list (list F)) (labels : list Z) :
  0 ≤ argmax_hits N rows labels ≤ Z.of_nat (length labels).
Proof.
  revert labels. induction rows as [|r rows IH]; intros [|l labels]; cbn; try lia.
  specialize (IH labels). destruct (decide _); lia.
Qed.

Lemma observed_hits_bounds (ph : Phase) (bs : list (Batch Clip)) (st : St) :
  0 ≤ observed_hits N B ph bs st ≤ Z.of_nat (length (concat bs)).
Proof.
  revert st. induction bs as [|b bs IH]; intros st; cbn [observed_hits concat]; [cbn; lia|].
  specialize (IH (after_batch B ph b st)).
  pose proof (argmax_hits_bounds (batch_probs B st b) b.*2) as Hb.
  rewrite length_fmap in Hb. rewrite length_app. lia.
Qed.

(** X13: the count of correct predictions behind a logged accuracy lies between
    0 and the number of samples the loader yielded in that phase -- without
    any assumption on the shape of the model's output. *)
Theorem logged_accuracy_counts_at_most_the_samples (cfg : Config) (e : Z) (st : St) :
  (∀ ph st', run_phase N B cfg ph e st = (Done tt, st') →
     ∃ m c,
       st_scalars st' = st_scalars st ++ phase_scalars (phase_name ph) m e ∧
       epoch_acc m = fdiv N (of_int N c) (of_int N (dataset_len B ph)) ∧
       0 ≤ c ≤ Z.of_nat (length (concat (loader B ph e)))) ∧
  (∀ st', test_pass N B cfg e st = (Done tt, st') →
     ∃ m c,
       st_scalars st' = st_scalars st ++ phase_scalars "test" m e ∧
       epoch_acc m = fdiv N (of_int N c) (of_int N (test_len B)) ∧
       0 ≤ c ≤ Z.of_nat (length (concat (test_loader B e)))).
Proof.
  split.
  - intros ph st' H.
    apply run_phase_done in H as (acc & m & st2 & Hloop & Hm & _ & Hsc).
    apply epoch_metrics_done in Hm as (_ & _ & _ & Hacc & _).
    apply trainval_batches_done in Hloop as (_ & _ & Hhits & _). cbn in Hhits.
    exists m, (running_corrects acc). split; [done|]. split; [done|].
    rewrite Hhits. apply observed_hits_bounds.
  - intros st' H.
    apply test_pass_done in H as (acc & m & st2 & Hloop & Hm & _ & Hsc).
    apply epoch_metrics_done in Hm as (_ & _ & _ & Hacc & _).
    apply trainval_batches_done in Hloop as (_ & _ & Hhits & _). cbn in Hhits.
    exists m, (running_corrects acc). split; [done|]. split; [done|].
    rewrite Hhits. apply observed_hits_bounds.
Qed.

End Facts.




(** ** The theorems on explicit runs *)

Lemma demo_forward_rows (train val test : list (Batch Demo.Clip)) :
  ∀ (t : bool) (p : Z) (xs : list Demo.Clip),
    length (forward (Demo.backend train val test) t p xs) = length xs.
Proof. intros t p xs. reflexivity. Qed.

Lemma demo_auc_undefined (train val test : list (Batch Demo.Clip)) :
  ∀ labels probs, single_class labels = true →
    roc_auc_score (Demo.backend train val test) labels probs = None.
Proof. intros labels probs H. cbn. unfold Demo.auc. by rewrite H. Qed.

(** C1, as stated, fails: with resume epoch 10 and a compatible checkpoint
    stored under the name of epoch 10, the run does not load it; it looks
    for the file of epoch 9 and dies. *)
Lemma resume_file_counterexample :
  st_fs Demo.resumable !! ckpt_path Demo.cfg_resume10 (resume_epoch Demo.cfg_resume10)
    = Some (CkptFile {| ck_epoch := 11; ck_state_dict := 5; ck_opt_dict := 5 |}) ∧
  train_model Demo.qnum (Demo.backend Demo.mixed Demo.mixed Demo.mixed)
    Demo.cfg_resume10 Demo.resumable
  = (Fatal (FileNotFoundError "/work/run/run_0/models/C3D-hmdb51_epoch-9.pth.tar"),
     Demo.resumable).
Proof. split; vm_compute; reflexivity. Qed.

(** C1 on explicit runs: resuming at epoch 10 with the file of epoch 9 on
    disk loads it and enters the loop; with that file absent the run dies
    before any scheduler step. *)
Lemma resume_loads_previous_epoch_file_witness :
  resume_epoch Demo.cfg_resume10 ≠ 0 ∧
  train_model Demo.qnum (Demo.backend Demo.mixed Demo.mixed Demo.mixed)
    Demo.cfg_resume10 Demo.saved9
  = epoch_loop Demo.qnum (Demo.backend Demo.mixed Demo.mixed Demo.mixed)
      Demo.cfg_resume10 (epoch_range Demo.cfg_resume10)
      (set_opt 5 (set_params 5 Demo.saved9)) ∧
  ∃ err,
    (train_model Demo.qnum (Demo.backend Demo.mixed Demo.mixed Demo.mixed)
       Demo.cfg_resume10 Demo.resumable).1 = Fatal err ∧
    st_last_epoch (train_model Demo.qnum (Demo.backend Demo.mixed Demo.mixed Demo.mixed)
       Demo.cfg_resume10 Demo.resumable).2 = 0.
Proof.
  assert (resume_epoch Demo.cfg_resume10 ≠ 0) as Hr by (vm_compute; discriminate).
  split; [exact Hr|]. split.
  - destruct (resume_loads_previous_epoch_file Demo.qnum
                (Demo.backend Demo.mixed Demo.mixed Demo.mixed)
                Demo.cfg_resume10 Demo.saved9 Hr) as (_ & Hload & _).
    apply (Hload {| ck_epoch := 10; ck_state_dict := 5; ck_opt_dict := 5 |}).
    + vm_compute. reflexivity.
    + reflexivity.
    + reflexivity.
  - destruct (resume_loads_previous_epoch_file Demo.qnum
                (Demo.backend Demo.mixed Demo.mixed Demo.mixed)
                Demo.cfg_resume10 Demo.resumable Hr) as (_ & _ & Hfail).
    destruct Hfail as (err & Herr & _ & _ & Hsched).
    + left. vm_compute. reflexivity.
    + exists err. split; [exact Herr | exact Hsched].
Defined.

(** C2, as stated, fails: the checkpoint saved at epoch 9 (interval 10) is
    the file a run with resume epoch 10 opens, and that run continues at
    epoch 10, not 9; a run with resume epoch 9 opens another file. *)
Lemma resume_index_counterexample :
  (save_epoch Demo.cfg20 | 9 + 1) ∧
  resume_path (with_resume 10 Demo.cfg20) = ckpt_path Demo.cfg20 9 ∧
  head (epoch_range (with_resume 10 Demo.cfg20)) = Some 10 ∧
  head (epoch_range (with_resume 10 Demo.cfg20)) ≠ Some 9 ∧
  resume_path (with_resume 9 Demo.cfg20) ≠ ckpt_path Demo.cfg20 9.
Proof.
  split; [by exists 1|]. split; [reflexivity|]. split; [reflexivity|].
  split; [vm_compute; discriminate|].
  intros H. vm_compute in H. discriminate H.
Qed.

(** C2 on an explicit configuration: interval 10, checkpoint of epoch 9,
    resume epoch 10. *)
Lemma resume_continues_at_next_epoch_witness :
  10 = 9 + 1 ∧
  epoch_range (with_resume 10 Demo.cfg20) = seqZ (9 + 1) (num_epochs Demo.cfg20 - (9 + 1)).
Proof.
  destruct (resume_continues_at_next_epoch Demo.qnum
              (Demo.backend Demo.mixed Demo.mixed Demo.mixed)
              Demo.cfg20 9 10 Demo.fresh) as (H1 & H2 & _).
  - vm_compute. reflexivity.
  - exists 1. reflexivity.
  - discriminate.
  - reflexivity.
  - split; [exact H1 | exact H2].
Defined.

(** C3, as stated, fails for the test split: one epoch, checkpoint interval
    1, a test split holding only label 0.  The run dies in the test pass
    with the AUC error, and the checkpoint of the epoch in progress is on
    disk. *)
Lemma single_class_test_counterexample :
  single_class (concat Demo.only0).*2 = true ∧
  (train_model Demo.qnum (Demo.backend Demo.mixed Demo.mixed Demo.only0)
     Demo.cfg1 Demo.fresh).1 = Fatal AucValueError ∧
  st_fs Demo.fresh !! ckpt_path Demo.cfg1 0 = None ∧
  st_fs (train_model Demo.qnum (Demo.backend Demo.mixed Demo.mixed Demo.only0)
           Demo.cfg1 Demo.fresh).2 !! ckpt_path Demo.cfg1 0
  = Some (CkptFile {| ck_epoch := 1; ck_state_dict := 2; ck_opt_dict := 1 |}).
Proof. repeat split; vm_compute; reflexivity. Qed.

(** C3 on an explicit run: a training split holding only label 0. *)
Lemma single_class_split_is_fatal_witness :
  (epoch_loop Demo.qnum (Demo.backend Demo.only0 Demo.mixed Demo.mixed)
     Demo.cfg1 [0] Demo.fresh).1 = Fatal AucValueError.
Proof.
  destruct (single_class_split_is_fatal Demo.qnum
              (Demo.backend Demo.only0 Demo.mixed Demo.mixed)
              (demo_auc_undefined Demo.only0 Demo.mixed Demo.mixed)
              Demo.cfg1 0 [] Demo.fresh) as (Htrain & _).
  edestruct Htrain as (Hrun & _).
  - lazy. reflexivity.
  - lazy. discriminate.
  - lazy. reflexivity.
  - rewrite Hrun. reflexivity.
Defined.

(** C4, as stated, fails for a model with three classes: in the
    validation phase below both samples are arg-max hits (logged accuracy
    2/2), but the sample of class 1 has probability 0.4 and the 0.5
    threshold on the dump misses it (recomputed accuracy 1/2). *)
Lemma dump_accuracy_counterexample :
  ∃ rows m after,
    run_phase Demo.qnum (Demo.backend Demo.mixed Demo.three Demo.mixed)
      Demo.cfg1 Val 0 Demo.fresh = (Done tt, after) ∧
    st_fs after !! csv_path (predictions_dir Demo.cfg1) "val" 0 = Some (CsvFile rows) ∧
    st_scalars after = st_scalars Demo.fresh ++ phase_scalars "val" m 0 ∧
    epoch_acc m = (2 # 2)%Q ∧
    dump_accuracy Demo.qnum rows = (1 # 2)%Q ∧
    Qeq_bool (dump_accuracy Demo.qnum rows) (epoch_acc m) = false.
Proof.
  eexists _, (mkMetrics (4 # 2) (2 # 2) 1 0 1)%Q, _.
  split; [vm_compute; reflexivity|].
  split; [vm_compute; reflexivity|]. repeat split; vm_compute; reflexivity.
Qed.

(** C4 on an explicit run: a two-class validation split of four samples,
    three of them hits. *)
Lemma dump_accuracy_matches_logged_witness :
  ∃ rows m,
    st_fs (run_phase Demo.qnum (Demo.backend Demo.mixed Demo.mixed Demo.mixed)
             Demo.cfg1 Val 0 Demo.fresh).2
      !! csv_path (predictions_dir Demo.cfg1) "val" 0 = Some (CsvFile rows) ∧
    dump_accuracy Demo.qnum rows = epoch_acc m ∧
    epoch_acc m = (3 # 4)%Q.
Proof.
  destruct (dump_accuracy_matches_logged Demo.qnum
              (Demo.backend Demo.mixed Demo.mixed Demo.mixed)
              (demo_forward_rows Demo.mixed Demo.mixed Demo.mixed)
              Demo.cfg1 0 Demo.fresh) as (Hphase & _).
  edestruct (Hphase Val) as (rows & m & Hfile & _ & Hdump & Hacc).
  - vm_compute. reflexivity.
  - vm_compute. repeat constructor.
  - reflexivity.
  - exists rows, m. split; [exact Hfile|]. split; [exact Hdump|].
    rewrite Hacc. vm_compute. reflexivity.
Defined.

(** C5, as stated, fails on the stored epoch: the checkpoint written at
    the end of epoch 0 carries the epoch field 1, not the epoch index 0. *)
Lemma checkpoint_epoch_field_counterexample :
  ∃ ck,
    st_fs (train_model Demo.qnum (Demo.backend Demo.mixed Demo.mixed Demo.mixed)
             Demo.cfg1 Demo.fresh).2 !! ckpt_path Demo.cfg1 0 = Some (CkptFile ck) ∧
    ck_epoch ck = 1 ∧ ck_epoch ck ≠ 0.
Proof. eexists. split; [vm_compute; reflexivity|]. split; [reflexivity|discriminate]. Qed.

(** C5 on an explicit configuration: interval 10, epochs 9 and 10. *)
Lemma checkpoint_every_interval_witness :
  0 < save_epoch Demo.cfg20 ∧
  maybe_checkpoint Demo.cfg20 9 Demo.fresh =
  (Done tt, write_file (ckpt_path Demo.cfg20 9)
              (CkptFile {| ck_epoch := 9 + 1; ck_state_dict := st_params Demo.fresh;
                           ck_opt_dict := st_opt Demo.fresh |}) Demo.fresh) ∧
  maybe_checkpoint Demo.cfg20 10 Demo.fresh = (Done tt, Demo.fresh).
Proof.
  assert (0 < save_epoch Demo.cfg20) as Hs by reflexivity.
  split; [exact Hs|].
  destruct (checkpoint_every_interval Demo.qnum
              (Demo.backend Demo.mixed Demo.mixed Demo.mixed)
              Demo.cfg20 9 Demo.fresh Hs) as (Hdue & _).
  destruct (checkpoint_every_interval Demo.qnum
              (Demo.backend Demo.mixed Demo.mixed Demo.mixed)
              Demo.cfg20 10 Demo.fresh Hs) as (_ & Hnot & _).
  split.
  - apply Hdue. exists 1. reflexivity.
  - apply Hnot. intros [c Hc]. change (10 + 1 = c * 10) in Hc. lia.
Defined.

(** C6 on an explicit run: two training batches of two samples with
    losses 2 and 1. *)
Lemma logged_loss_is_weighted_mean_witness :
  ∃ m,
    st_scalars (run_phase Demo.qnum (Demo.backend Demo.mixed Demo.mixed Demo.mixed)
                  Demo.cfg1 Train 0 Demo.fresh).2
      = st_scalars Demo.fresh ++ phase_scalars "train" m 0 ∧
    epoch_loss m = (((0 + 2 * 2) + 1 * 2) / 4)%Q.
Proof.
  destruct (logged_loss_is_weighted_mean Demo.qnum
              (Demo.backend Demo.mixed Demo.mixed Demo.mixed)
              Demo.cfg1 0 Demo.fresh) as (Hphase & _).
  edestruct (Hphase Train) as (m & Hlog & Hloss).
  - vm_compute. reflexivity.
  - exists m. split; [exact Hlog|]. rewrite Hloss. reflexivity.
Defined.

(** C7 on an explicit run: the test dump of a split of four samples. *)
Lemma dump_has_one_row_per_sample_witness :
  ∃ probs,
    st_fs (test_pass Demo.qnum (Demo.backend Demo.mixed Demo.mixed Demo.mixed)
             Demo.cfg1 0 Demo.fresh).2
      !! csv_path (predictions_dir Demo.cfg1) "test" 0
    = Some (CsvFile ([CStr "TrueLabel"; CStr "Probability"]
                     :: map (λ lp : Z * Q, [CInt lp.1; CFloat lp.2])
                            (zip [1; 0; 0; 0] probs))) ∧
    length probs = 4%nat.
Proof.
  destruct (dump_has_one_row_per_sample Demo.qnum
              (Demo.backend Demo.mixed Demo.mixed Demo.mixed)
              (demo_forward_rows Demo.mixed Demo.mixed Demo.mixed)
              Demo.cfg1 0 Demo.fresh) as (_ & Htest).
  edestruct Htest as (probs & Hfile & _ & Hlen & _).
  - vm_compute. reflexivity.
  - exists probs. split; [exact Hfile | exact Hlen].
Defined.

(** C8 on an explicit run: two epochs with test evaluation disabled. *)
Lemma disabled_test_produces_nothing_witness :
  useTest Demo.cfg_notest = false ∧
  ∀ e, st_fs (train_model Demo.qnum (Demo.backend Demo.mixed Demo.mixed Demo.mixed)
                Demo.cfg_notest Demo.fresh).2
         !! csv_path (predictions_dir Demo.cfg_notest) "test" e
       = st_fs Demo.fresh !! csv_path (predictions_dir Demo.cfg_notest) "test" e.
Proof.
  split; [reflexivity|].
  apply (disabled_test_produces_nothing Demo.qnum
           (Demo.backend Demo.mixed Demo.mixed Demo.mixed)
           Demo.cfg_notest Demo.fresh).
  reflexivity.
Defined.
(** ** The further properties on explicit runs *)

(** Dump and checkpoint paths of one configuration. *)
Lemma output_paths_are_distinct_witness :
  dump_name "train" ∧ dump_name "val" ∧
  csv_path (predictions_dir Demo.cfg1) "train" 0 ≠ ckpt_path Demo.cfg1 0.
Proof.
  assert (dump_name "train") as H1 by (by left).
  assert (dump_name "val") as H2 by (by right; left).
  split; [exact H1|]. split; [exact H2|].
  exact (proj2 (output_paths_are_distinct Demo.cfg1 "train" "val" 0 0 0 H1 H2)).
Defined.

(** One epoch, one scheduler step. *)
Lemma scheduler_steps_once_per_epoch_witness :
  st_last_epoch (train_model Demo.qnum (Demo.backend Demo.mixed Demo.mixed Demo.mixed)
                   Demo.cfg1 Demo.fresh).2 = 0 + Z.max 0 (1 - 0).
Proof.
  apply (proj2 (scheduler_steps_once_per_epoch Demo.qnum
                  (Demo.backend Demo.mixed Demo.mixed Demo.mixed) Demo.cfg1 Demo.fresh)).
  vm_compute. reflexivity.
Defined.

(** A training phase over a single-class split dies and leaves the disk
    and the scalar stream as they were. *)
Lemma failed_phase_writes_nothing_witness :
  st_fs (run_phase Demo.qnum (Demo.backend Demo.only0 Demo.mixed Demo.mixed)
           Demo.cfg1 Train 0 Demo.fresh).2 = st_fs Demo.fresh.
Proof.
  apply (proj1 (failed_phase_writes_nothing Demo.qnum
                  (Demo.backend Demo.only0 Demo.mixed Demo.mixed) Demo.cfg1 0
                  Demo.fresh _ AucValueError) Train).
  vm_compute. reflexivity.
Defined.

(** One epoch with the test pass due: fifteen scalars. *)
Lemma finished_epoch_scalars_witness :
  test_due Demo.cfg1 0 = true ∧
  length (st_scalars (run_epoch Demo.qnum (Demo.backend Demo.mixed Demo.mixed Demo.mixed)
                        Demo.cfg1 0 Demo.fresh).2) = 15%nat.
Proof.
  split; [reflexivity|].
  destruct (finished_epoch_scalars Demo.qnum
              (Demo.backend Demo.mixed Demo.mixed Demo.mixed) Demo.cfg1 0 Demo.fresh
              (run_epoch Demo.qnum (Demo.backend Demo.mixed Demo.mixed Demo.mixed)
                 Demo.cfg1 0 Demo.fresh).2) as (mT & mV & tests & _ & _ & _ & Hlen).
  - vm_compute. reflexivity.
  - exact Hlen.
Defined.


(** A path outside the run directory. *)
Lemma run_writes_only_under_save_dir_witness :
  st_fs (train_model Demo.qnum (Demo.backend Demo.mixed Demo.mixed Demo.mixed)
           Demo.cfg1 Demo.fresh).2 !! "/work/run/run_1/models/C3D-hmdb51_epoch-0.pth.tar"
  = st_fs Demo.fresh !! "/work/run/run_1/models/C3D-hmdb51_epoch-0.pth.tar".
Proof.
  apply (run_writes_only_under_save_dir Demo.qnum
           (Demo.backend Demo.mixed Demo.mixed Demo.mixed) Demo.cfg1 Demo.fresh).
  - vm_compute. reflexivity.
  - vm_compute. reflexivity.
Defined.

(** Checkpoint interval 0 and test interval 0. *)
Lemma zero_interval_is_fatal_witness :
  save_epoch Demo.cfg_zero = 0 ∧
  (epoch_loop Demo.qnum (Demo.backend Demo.mixed Demo.mixed Demo.mixed)
     Demo.cfg_zero [0; 1; 2] Demo.fresh).1 = Fatal ZeroDivisionError.
Proof.
  split; [reflexivity|].
  destruct (zero_interval_is_fatal Demo.qnum
              (Demo.backend Demo.mixed Demo.mixed Demo.mixed) Demo.cfg_zero 0 [1; 2]
              Demo.fresh
              (run_phase Demo.qnum (Demo.backend Demo.mixed Demo.mixed Demo.mixed)
                 Demo.cfg_zero Train 0 Demo.fresh).2
              (run_phase Demo.qnum (Demo.backend Demo.mixed Demo.mixed Demo.mixed)
                 Demo.cfg_zero Val 0
                 (run_phase Demo.qnum (Demo.backend Demo.mixed Demo.mixed Demo.mixed)
                    Demo.cfg_zero Train 0 Demo.fresh).2).2) as (Hzero & _).
  - vm_compute. reflexivity.
  - vm_compute. reflexivity.
  - rewrite Hzero; reflexivity.
Defined.

(** Checkpoint interval -1. *)
Lemma negative_interval_never_saves_witness :
  save_epoch Demo.cfg_negative < 0 ∧
  st_fs (train_model Demo.qnum (Demo.backend Demo.mixed Demo.mixed Demo.mixed)
           Demo.cfg_negative Demo.fresh).2 !! ckpt_path Demo.cfg_negative 0
  = st_fs Demo.fresh !! ckpt_path Demo.cfg_negative 0.
Proof.
  assert (save_epoch Demo.cfg_negative < 0) as Hs by reflexivity.
  split; [exact Hs|].
  exact (negative_interval_never_saves Demo.qnum
           (Demo.backend Demo.mixed Demo.mixed Demo.mixed) Demo.cfg_negative Demo.fresh
           0 Hs).
Defined.

(** Test evaluation disabled, test interval 0 or 7. *)
Lemma test_interval_unused_when_disabled_witness :
  useTest Demo.cfg_notest = false ∧
  train_model Demo.qnum (Demo.backend Demo.mixed Demo.mixed Demo.mixed)
    (with_test_interval 0 Demo.cfg_notest) Demo.fresh
  = train_model Demo.qnum (Demo.backend Demo.mixed Demo.mixed Demo.mixed)
      Demo.cfg_notest Demo.fresh.
Proof.
  assert (useTest Demo.cfg_notest = false) as Hoff by reflexivity.
  split; [exact Hoff|].
  exact (test_interval_unused_when_disabled Demo.qnum
           (Demo.backend Demo.mixed Demo.mixed Demo.mixed) Demo.cfg_notest 0
           Demo.fresh Hoff).
Defined.


(** Two training batches: two optimizer steps, kept to the end of the epoch. *)
Lemma epoch_trains_only_in_training_phase_witness :
  st_params (run_epoch Demo.qnum (Demo.backend Demo.mixed Demo.mixed Demo.mixed)
               Demo.cfg1 0 Demo.fresh).2 = 2.
Proof.
  destruct (epoch_trains_only_in_training_phase Demo.qnum
              (Demo.backend Demo.mixed Demo.mixed Demo.mixed) Demo.cfg1 0 Demo.fresh
              (run_phase Demo.qnum (Demo.backend Demo.mixed Demo.mixed Demo.mixed)
                 Demo.cfg1 Train 0 Demo.fresh).2) as (_ & _ & Hp & _).
  - vm_compute. reflexivity.
  - rewrite Hp. reflexivity.
Defined.

(** The validation dump of a four-sample split. *)
Lemma evaluation_dump_is_static_witness :
  ∃ probs,
    st_fs (run_phase Demo.qnum (Demo.backend Demo.mixed Demo.mixed Demo.mixed)
             Demo.cfg1 Val 0 Demo.fresh).2
      !! csv_path (predictions_dir Demo.cfg1) "val" 0
    = Some (dump_of [1; 0; 0; 0] probs) ∧
    Forall2 (λ (row : list Q) p, row !! 1%nat = Some p)
      [[1 # 4; 3 # 4]; [3 # 4; 1 # 4]; [1 # 4; 3 # 4]; [3 # 4; 1 # 4]]%Q probs.
Proof.
  apply (proj1 (evaluation_dump_is_static Demo.qnum
                  (Demo.backend Demo.mixed Demo.mixed Demo.mixed) Demo.cfg1 0 Demo.fresh)).
  vm_compute. reflexivity.
Defined.

(** Three hits among four samples. *)
Lemma logged_accuracy_counts_at_most_the_samples_witness :
  ∃ m c,
    epoch_acc m = (inject_Z c / inject_Z 4)%Q ∧ 0 ≤ c ≤ 4.
Proof.
  destruct (logged_accuracy_counts_at_most_the_samples Demo.qnum
              (Demo.backend Demo.mixed Demo.mixed Demo.mixed) Demo.cfg1 0 Demo.fresh)
    as (Hphase & _).
  edestruct (Hphase Val) as (m & c & _ & Hacc & Hc).
  - vm_compute. reflexivity.
  - exists m, c. split; [exact Hacc | exact Hc].
Defined.
